(** * Boxer: a native message box behind one portable signature

    A shallow embedding of [boxer.hpp].  The header is compiled for one of
    two back-ends, GTK ([__linux__]) and Win32 ([WINDOWS], with or without
    [UNICODE]); each back-end is a module below.  The three [enum class]
    types keep their underlying [int], so that values outside the listed
    enumerators (which [static_cast] can produce) reach the [default:]
    branches and [std::map::at] exactly as they do in C++. *)

From stdpp Require Import gmap strings list.
From Stdlib Require Import ZArith Lia.

Local Open Scope Z_scope.

(** ** C++ scaffolding *)

(** [switch (x) { case l1: b1; ...; default: d }] where every case body
    returns.  Case labels of one [switch] are pairwise distinct in C++, so
    taking the first match is the C++ meaning. *)
Fixpoint switch {A : Type} (x : Z) (cases : list (Z * A)) (default : A) : A :=
  match cases with
  | [] => default
  | (label, body) :: rest => if x =? label then body else switch x rest default
  end.

(** The exceptions this header can raise: [std::out_of_range] from
    [std::map::at], [std::bad_alloc] from the construction of a
    [std::wstring]. *)
Inductive exception : Type :=
| out_of_range (what : string)
| bad_alloc.

(** ** namespace boxer: the three enumerations *)

Module Style.
Record t : Type := static_cast { underlying : Z }.
#[global] Instance eq_dec : EqDecision t.
Proof. solve_decision. Defined.
#[global] Instance countable : Countable t :=
  inj_countable' underlying static_cast (fun s => match s with static_cast _ => eq_refl end).
Definition Info : t := static_cast 0.
Definition Warning : t := static_cast 1.
Definition Error : t := static_cast 2.
Definition Question : t := static_cast 3.
Definition enumerators : list t := [Info; Warning; Error; Question].
End Style.

Module Buttons.
Record t : Type := static_cast { underlying : Z }.
#[global] Instance eq_dec : EqDecision t.
Proof. solve_decision. Defined.
#[global] Instance countable : Countable t :=
  inj_countable' underlying static_cast (fun s => match s with static_cast _ => eq_refl end).
Definition OK : t := static_cast 0.
Definition OKCancel : t := static_cast 1.
Definition YesNo : t := static_cast 2.
Definition Quit : t := static_cast 3.
Definition enumerators : list t := [OK; OKCancel; YesNo; Quit].
(** [buttons == Buttons::Quit] and friends *)
Definition eqb (a b : t) : bool := underlying a =? underlying b.
End Buttons.

Module Selection.
Record t : Type := static_cast { underlying : Z }.
#[global] Instance eq_dec : EqDecision t.
Proof. solve_decision. Defined.
#[global] Instance countable : Countable t :=
  inj_countable' underlying static_cast (fun s => match s with static_cast _ => eq_refl end).
Definition OK : t := static_cast 0.
Definition Cancel : t := static_cast 1.
Definition Yes : t := static_cast 2.
Definition No : t := static_cast 3.
Definition Quit : t := static_cast 4.
Definition None : t := static_cast 5.
Definition Error : t := static_cast 6.
Definition enumerators : list t := [OK; Cancel; Yes; No; Quit; None; Error].
End Selection.

(** The default style to apply to a message box *)
Definition kDefaultStyle : Style.t := Style.Info.

(** The default buttons to provide on a message box *)
Definition kDefaultButtons : Buttons.t := Buttons.OK.

(** ** Calls into the native toolkit

    A computation that calls into the toolkit threads the toolkit's world
    [W] through its steps.  The only way not to produce a result is to run
    out of the fuel given to a loop; C functions of the toolkits do not
    raise C++ exceptions.  The one operation of the header that can raise
    inside [show], the construction of a [std::wstring], has a section of its
    own after the Win32 back-end. *)

Definition nullptr {A : Type} : option A := None.

Section Native.
Context {W : Type}.
Definition M (A : Type) : Type := W -> option (A * W).
Definition ret {A : Type} (a : A) : M A := fun w => Some (a, w).
Definition bind {A B : Type} (c : M A) (k : A -> M B) : M B :=
  fun w => match c w with
           | Some (a, w') => k a w'
           | None => None
           end.
Definition out_of_fuel {A : Type} : M A := fun _ => None.

(** [while (cond) body] *)
Fixpoint while_ (fuel : nat) (cond : M bool) (body : M unit) : M unit :=
  match fuel with
  | O => out_of_fuel
  | S fuel' =>
      bind cond (fun c =>
        if c then bind body (fun _ => while_ fuel' cond body) else ret tt)
  end.
End Native.

Declare Scope native_scope.
Delimit Scope native_scope with native.
Notation "'let*' x ':=' c 'in' k" := (bind c (fun x => k))
  (at level 10, x name, c at level 100, k at level 200) : native_scope.
Notation "'run' c ';;' k" := (bind c (fun _ => k))
  (at level 10, c at level 99, k at level 200) : native_scope.

(** ** The GTK back-end ([#if defined(__linux__)]) *)

Module Linux.

(** Modelled from the spec: the GTK and GDK enumerators that [boxer.hpp]
    takes from [<gtk/gtk.h>] (the spec's "documented native constant" of
    each case); the header is not part of the repository.  The values are
    those of the GTK 3 headers. *)
Definition GTK_MESSAGE_INFO : Z := 0.
Definition GTK_MESSAGE_WARNING : Z := 1.
Definition GTK_MESSAGE_QUESTION : Z := 2.
Definition GTK_MESSAGE_ERROR : Z := 3.
Definition GTK_BUTTONS_OK : Z := 1.
Definition GTK_BUTTONS_CLOSE : Z := 2.
Definition GTK_BUTTONS_YES_NO : Z := 4.
Definition GTK_BUTTONS_OK_CANCEL : Z := 5.
Definition GTK_RESPONSE_OK : Z := -5.
Definition GTK_RESPONSE_CANCEL : Z := -6.
Definition GTK_RESPONSE_CLOSE : Z := -7.
Definition GTK_RESPONSE_YES : Z := -8.
Definition GTK_RESPONSE_NO : Z := -9.
Definition GTK_WINDOW_TOPLEVEL : Z := 0.
Definition GTK_DIALOG_MODAL : Z := 1.
Definition GDK_GRAVITY_CENTER : Z := 5.
Definition GTK_WIN_POS_CENTER : Z := 1.

Definition getMessageType (style : Style.t) : Z :=
  switch (Style.underlying style)
    [ (Style.underlying Style.Info, GTK_MESSAGE_INFO);
      (Style.underlying Style.Warning, GTK_MESSAGE_WARNING);
      (Style.underlying Style.Error, GTK_MESSAGE_ERROR);
      (Style.underlying Style.Question, GTK_MESSAGE_QUESTION) ]
    GTK_MESSAGE_INFO.

Definition getButtonsType (buttons : Buttons.t) : Z :=
  switch (Buttons.underlying buttons)
    [ (Buttons.underlying Buttons.OK, GTK_BUTTONS_OK);
      (Buttons.underlying Buttons.OKCancel, GTK_BUTTONS_OK_CANCEL);
      (Buttons.underlying Buttons.YesNo, GTK_BUTTONS_YES_NO);
      (Buttons.underlying Buttons.Quit, GTK_BUTTONS_CLOSE) ]
    GTK_BUTTONS_OK.

Definition getSelection (response : Z) : Selection.t :=
  switch response
    [ (GTK_RESPONSE_OK, Selection.OK);
      (GTK_RESPONSE_CANCEL, Selection.Cancel);
      (GTK_RESPONSE_YES, Selection.Yes);
      (GTK_RESPONSE_NO, Selection.No);
      (GTK_RESPONSE_CLOSE, Selection.Quit) ]
    Selection.None.

(** *** The GTK world *)

(** A [GtkWidget*]. *)
Definition GtkWidget : Type := nat.

(** The calls [show] makes, with their arguments and what they returned. *)
Inductive call : Type :=
| gtk_init_check_ (result : bool)
| gtk_window_new_ (type : Z) (result : GtkWidget)
| gtk_message_dialog_new_ (parent : GtkWidget) (flags type buttons : Z)
    (message_format message : string) (result : GtkWidget)
| gtk_window_set_title_ (window : GtkWidget) (title : string)
| gtk_window_set_gravity_ (window : GtkWidget) (gravity : Z)
| gtk_window_set_position_ (window : GtkWidget) (position : Z)
| gtk_dialog_run_ (dialog : GtkWidget) (result : Z)
| gtk_widget_destroy_ (widget : GtkWidget)
| g_main_context_iteration_ (may_block : bool) (result : bool).

(** What lies outside the program ([display], [user], [main_context]: whether
    a display can be opened, the response with which the user dismisses a
    dialog, and whether the n-th iteration of the default main context finds
    an event to dispatch) and the toolkit's state (the rest). *)
Record World : Type := mkWorld {
  display : bool;
  user : Z;
  main_context : nat -> bool;
  initialised : bool;
  live : gset GtkWidget;
  next : GtkWidget;
  iterations : nat;
  log : list call
}.

Definition logged (c : call) (w : World) : World :=
  mkWorld (display w) (user w) (main_context w)
          (initialised w) (live w) (next w) (iterations w) (log w ++ [c]).

(** Whether the windowing system is initialised already or can be now. *)
Definition can_init (w : World) : bool := initialised w || display w.

(** [gtk_init_check(0, nullptr)] *)
Definition gtk_init_check : M (W := World) bool :=
  fun w =>
    let ok := can_init w in
    let w' := mkWorld (display w) (user w) (main_context w)
                      ok (live w) (next w) (iterations w) (log w) in
    Some (ok, logged (gtk_init_check_ ok) w').

(** A new widget gets the next free address. *)
Definition new_widget (c : GtkWidget -> call) : M (W := World) GtkWidget :=
  fun w =>
    let h := next w in
    let w' := mkWorld (display w) (user w) (main_context w)
                      (initialised w) ({[ h ]} ∪ live w) (S h) (iterations w) (log w) in
    Some (h, logged (c h) w').

Definition gtk_window_new (type : Z) : M GtkWidget :=
  new_widget (gtk_window_new_ type).

Definition gtk_message_dialog_new (parent : GtkWidget) (flags type buttons : Z)
    (message_format message : string) : M GtkWidget :=
  new_widget (gtk_message_dialog_new_ parent flags type buttons message_format message).

Definition gtk_window_set_title (window : GtkWidget) (title : string) : M (W := World) unit :=
  fun w => Some (tt, logged (gtk_window_set_title_ window title) w).

Definition gtk_window_set_gravity (window : GtkWidget) (gravity : Z) : M (W := World) unit :=
  fun w => Some (tt, logged (gtk_window_set_gravity_ window gravity) w).

Definition gtk_window_set_position (window : GtkWidget) (position : Z) : M (W := World) unit :=
  fun w => Some (tt, logged (gtk_window_set_position_ window position) w).

(** Blocks until the user responds. *)
Definition gtk_dialog_run (dialog : GtkWidget) : M (W := World) Z :=
  fun w => Some (user w, logged (gtk_dialog_run_ dialog (user w)) w).

Definition gtk_widget_destroy (widget : GtkWidget) : M (W := World) unit :=
  fun w =>
    let w' := mkWorld (display w) (user w) (main_context w)
                      (initialised w) (live w ∖ {[ widget ]}) (next w) (iterations w) (log w) in
    Some (tt, logged (gtk_widget_destroy_ widget) w').

(** One iteration of the main loop of [context] ([nullptr]: the default
    context); [TRUE] when events were dispatched. *)
Definition g_main_context_iteration (context : option nat) (may_block : bool) : M (W := World) bool :=
  fun w =>
    let more := main_context w (iterations w) in
    let w' := mkWorld (display w) (user w) (main_context w)
                      (initialised w) (live w) (next w) (S (iterations w)) (log w) in
    Some (more, logged (g_main_context_iteration_ may_block more) w').

(** Blocking call to create a modal message box with the given message,
    title, style, and buttons.  [fuel] bounds the iterations of the loop that
    drains the main context. *)
Definition show (fuel : nat) (message title : string)
    (style : Style.t) (buttons : Buttons.t) : M (W := World) Selection.t :=
  (let* ok := gtk_init_check in
   if negb ok then ret Selection.Error
   else
     (* Create a parent window to stop gtk_dialog_run from complaining *)
     let* parent := gtk_window_new GTK_WINDOW_TOPLEVEL in
     let* dialog := gtk_message_dialog_new parent GTK_DIALOG_MODAL
                      (getMessageType style) (getButtonsType buttons) "%s" message in
     run gtk_window_set_title dialog title ;;
     run gtk_window_set_gravity parent GDK_GRAVITY_CENTER ;;
     run gtk_window_set_gravity dialog GDK_GRAVITY_CENTER ;;
     run gtk_window_set_position parent GTK_WIN_POS_CENTER ;;
     run gtk_window_set_position dialog GTK_WIN_POS_CENTER ;;
     let* response := gtk_dialog_run dialog in
     let selection := getSelection response in
     run gtk_widget_destroy dialog ;;
     run gtk_widget_destroy parent ;;
     run while_ fuel (g_main_context_iteration nullptr false) (ret tt) ;;
     ret selection)%native.

(** Convenience function to call show() with the default buttons *)
Definition show_style (fuel : nat) (message title : string) (style : Style.t)
    : M (W := World) Selection.t :=
  show fuel message title style kDefaultButtons.

(** Convenience function to call show() with the default style *)
Definition show_buttons (fuel : nat) (message title : string) (buttons : Buttons.t)
    : M (W := World) Selection.t :=
  show fuel message title kDefaultStyle buttons.

(** Convenience function to call show() with the default style and buttons *)
Definition show_default (fuel : nat) (message title : string)
    : M (W := World) Selection.t :=
  show fuel message title kDefaultStyle kDefaultButtons.

(** *** Vocabulary for the properties *)

(** The main context runs out of events in fewer than [fuel] iterations. *)
Definition idle_before (fuel : nat) (w : World) : Prop :=
  exists k : nat, (k < fuel)%nat /\ main_context w (iterations w + k)%nat = false.

(** The calls that construct or run a dialog. *)
Definition is_dialog_call (c : call) : bool :=
  match c with
  | gtk_window_new_ _ _ | gtk_message_dialog_new_ _ _ _ _ _ _ _
  | gtk_dialog_run_ _ _ => true
  | _ => false
  end.

(** A machine without a display, and one with a display whose user closes
    the dialog and whose main context has two events left to dispatch. *)
Definition headless : World :=
  mkWorld false 0 (fun _ => false) false ∅ 0%nat 0%nat [].
Definition desktop : World :=
  mkWorld true GTK_RESPONSE_CLOSE (fun n => (n <? 2)%nat) false ∅ 0%nat 0%nat [].

(** Every live widget was allocated: its address is below the next free
    one. *)
Definition well_formed (w : World) : Prop :=
  forall h : GtkWidget, h ∈ live w -> (h < next w)%nat.

(** The first iteration of the main context that finds nothing to dispatch
    is the [k]-th from now. *)
Definition first_idle (k : nat) (w : World) : Prop :=
  (forall j : nat, (j < k)%nat -> main_context w (iterations w + j)%nat = true) /\
  main_context w (iterations w + k)%nat = false.

(** The calls of a run of [show] from the initialisation of the toolkit to
    the destruction of the two widgets, [parent] and [dialog] being their
    addresses and [response] what the dialog returned. *)
Definition dialog_calls (message title : string) (style : Style.t) (buttons : Buttons.t)
    (parent dialog : GtkWidget) (response : Z) : list call :=
  [ gtk_init_check_ true;
    gtk_window_new_ GTK_WINDOW_TOPLEVEL parent;
    gtk_message_dialog_new_ parent GTK_DIALOG_MODAL
      (getMessageType style) (getButtonsType buttons) "%s" message dialog;
    gtk_window_set_title_ dialog title;
    gtk_window_set_gravity_ parent GDK_GRAVITY_CENTER;
    gtk_window_set_gravity_ dialog GDK_GRAVITY_CENTER;
    gtk_window_set_position_ parent GTK_WIN_POS_CENTER;
    gtk_window_set_position_ dialog GTK_WIN_POS_CENTER;
    gtk_dialog_run_ dialog response;
    gtk_widget_destroy_ dialog;
    gtk_widget_destroy_ parent ].

(** The calls of the loop that drains the main context when [k] iterations
    dispatch events and the next one finds none. *)
Definition drain_calls (k : nat) : list call :=
  replicate k (g_main_context_iteration_ false true) ++
  [g_main_context_iteration_ false false].

(** The world in which that loop starts. *)
Definition shown (message title : string) (style : Style.t) (buttons : Buttons.t)
    (w : World) : World :=
  let parent := next w in
  let dialog := S parent in
  mkWorld (display w) (user w) (main_context w) true
    ((({[ dialog ]} ∪ ({[ parent ]} ∪ live w)) ∖ {[ dialog ]}) ∖ {[ parent ]})
    (S dialog) (iterations w)
    (log w ++ dialog_calls message title style buttons parent dialog (user w)).

(** A desktop whose main context always has one more event to dispatch. *)
Definition busy : World :=
  mkWorld true GTK_RESPONSE_OK (fun _ => true) false ∅ 0%nat 0%nat [].

End Linux.

(** ** The Win32 back-end ([#elif defined(WINDOWS)]) *)

Module Windows.

(** Modelled from the spec: the constants that [boxer.hpp] takes from
    [<Windows.h>] (the spec's "documented native constant" of each case);
    the header is not part of the repository.  The values are those of
    [WinUser.h] and [WinNls.h]. *)
Definition MB_OK : Z := 0x0.
Definition MB_OKCANCEL : Z := 0x1.
Definition MB_YESNO : Z := 0x4.
Definition MB_ICONERROR : Z := 0x10.
Definition MB_ICONQUESTION : Z := 0x20.
Definition MB_ICONWARNING : Z := 0x30.
Definition MB_ICONINFORMATION : Z := 0x40.
Definition MB_TASKMODAL : Z := 0x2000.
Definition IDOK : Z := 1.
Definition IDCANCEL : Z := 2.
Definition IDYES : Z := 6.
Definition IDNO : Z := 7.
Definition CP_UTF8 : Z := 65001.

Definition getIcon (style : Style.t) : Z :=
  switch (Style.underlying style)
    [ (Style.underlying Style.Info, MB_ICONINFORMATION);
      (Style.underlying Style.Warning, MB_ICONWARNING);
      (Style.underlying Style.Error, MB_ICONERROR);
      (Style.underlying Style.Question, MB_ICONQUESTION) ]
    MB_ICONINFORMATION.

Definition getButtons (buttons : Buttons.t) : Z :=
  switch (Buttons.underlying buttons)
    [ (Buttons.underlying Buttons.OK, MB_OK);
      (* There is no 'Quit' button on Windows :( *)
      (Buttons.underlying Buttons.Quit, MB_OK);
      (Buttons.underlying Buttons.OKCancel, MB_OKCANCEL);
      (Buttons.underlying Buttons.YesNo, MB_YESNO) ]
    MB_OK.

Definition getSelection (response : Z) (buttons : Buttons.t) : Selection.t :=
  switch response
    [ (IDOK, if Buttons.eqb buttons Buttons.Quit then Selection.Quit else Selection.OK);
      (IDCANCEL, Selection.Cancel);
      (IDYES, Selection.Yes);
      (IDNO, Selection.No) ]
    Selection.None.

(** *** The Win32 world *)

(** [std::wstring]: UTF-16 code units. *)
Definition wstring : Type := list Z.

(** [wstring::c_str()]: the units up to the first [L'\0']. *)
Fixpoint c_str (s : wstring) : wstring :=
  match s with
  | [] => []
  | u :: rest => if u =? 0 then [] else u :: c_str rest
  end.

(** What [MessageBox] is given as text: [const char*] for [MessageBoxA],
    [const WCHAR*] for [MessageBoxW]. *)
Inductive text : Type :=
| chars (s : string)
| wchars (s : wstring).

Inductive call : Type :=
| MultiByteToWideChar_ (CodePage dwFlags : Z) (lpMultiByteStr : string)
    (cbMultiByte : Z) (lpWideCharStr : option wstring) (cchWideChar : Z) (result : Z)
| MessageBox_ (hWnd : option nat) (lpText lpCaption : text) (uType : Z) (result : Z).

(** What lies outside the program: [converter] is the system's
    [MultiByteToWideChar] (for a code page, flags, a source string, its
    length and the capacity of the buffer: the returned count and the units
    written to the buffer), [user] the identifier with which a message box
    of the given owner, text, caption and flags is dismissed (0 when it could not be
    created).  The state is the log of calls made. *)
Record World : Type := mkWorld {
  converter : Z -> Z -> string -> Z -> Z -> Z * wstring;
  user : option nat -> text -> text -> Z -> Z;
  log : list call
}.

Definition logged (c : call) (w : World) : World :=
  mkWorld (converter w) (user w) (log w ++ [c]).

(** A buffer after [written] has been stored at its start: what lies behind
    the units written stays as it was, and nothing is stored past its end. *)
Definition overwrite (written buffer : wstring) : wstring :=
  take (length buffer) (written ++ drop (length written) buffer).

(** Returns the count and the buffer as the call leaves it; a [nullptr]
    buffer stays as it is. *)
Definition MultiByteToWideChar (CodePage dwFlags : Z) (lpMultiByteStr : string)
    (cbMultiByte : Z) (lpWideCharStr : option wstring) (cchWideChar : Z)
    : M (W := World) (Z * option wstring) :=
  fun w =>
    let r := converter w CodePage dwFlags lpMultiByteStr cbMultiByte cchWideChar in
    let c := MultiByteToWideChar_ CodePage dwFlags lpMultiByteStr cbMultiByte
               lpWideCharStr cchWideChar (fst r) in
    Some ((fst r, match lpWideCharStr with
                  | Some buffer => Some (overwrite (snd r) buffer)
                  | None => None
                  end), logged c w).

(** [MessageBoxW] when [UNICODE] is defined, [MessageBoxA] otherwise. *)
Definition MessageBox (hWnd : option nat) (lpText lpCaption : text) (uType : Z)
    : M (W := World) Z :=
  fun w =>
    let r := user w hWnd lpText lpCaption uType in
    Some (r, logged (MessageBox_ hWnd lpText lpCaption uType r) w).

(** [#if defined(UNICODE)].  The reference parameter [utf16String] is
    passed in and handed back with the result.  The storage of the new string
    is granted here; [Win32Heap.utf8ToUtf16] is the same function before a
    free store that can refuse it. *)
Definition utf8ToUtf16 (utf8String : string) (utf16String : wstring)
    : M (W := World) (bool * wstring) :=
  (let* sized := MultiByteToWideChar CP_UTF8 0 utf8String (-1) nullptr 0 in
   let count := fst sized in
   if count <=? 0 then ret (false, utf16String)
   else
     let utf16String := replicate (Z.to_nat count) 0 in
     let* converted := MultiByteToWideChar CP_UTF8 0 utf8String (-1) (Some utf16String) count in
     ret (fst converted >? 0, default utf16String (snd converted)))%native.

(** Blocking call to create a modal message box with the given message,
    title, style, and buttons.  [UNICODE] tells whether the macro is
    defined. *)
Definition show (UNICODE : bool) (message title : string)
    (style : Style.t) (buttons : Buttons.t) : M (W := World) Selection.t :=
  (let flags := MB_TASKMODAL in
   let flags := Z.lor flags (getIcon style) in
   let flags := Z.lor flags (getButtons buttons) in
   if UNICODE then
     let wideMessage : wstring := [] in
     let wideTitle : wstring := [] in
     (* !utf8ToUtf16(message, wideMessage) || !utf8ToUtf16(title, wideTitle) *)
     let* m := utf8ToUtf16 message wideMessage in
     let wideMessage := snd m in
     if negb (fst m) then ret Selection.Error
     else
       let* t := utf8ToUtf16 title wideTitle in
       let wideTitle := snd t in
       if negb (fst t) then ret Selection.Error
       else
         let messageArg := wchars (c_str wideMessage) in
         let titleArg := wchars (c_str wideTitle) in
         let* response := MessageBox nullptr messageArg titleArg flags in
         ret (getSelection response buttons)
   else
     let messageArg := chars message in
     let titleArg := chars title in
     let* response := MessageBox nullptr messageArg titleArg flags in
     ret (getSelection response buttons))%native.

(** Convenience function to call show() with the default buttons *)
Definition show_style (UNICODE : bool) (message title : string) (style : Style.t)
    : M (W := World) Selection.t :=
  show UNICODE message title style kDefaultButtons.

(** Convenience function to call show() with the default style *)
Definition show_buttons (UNICODE : bool) (message title : string) (buttons : Buttons.t)
    : M (W := World) Selection.t :=
  show UNICODE message title kDefaultStyle buttons.

(** Convenience function to call show() with the default style and buttons *)
Definition show_default (UNICODE : bool) (message title : string)
    : M (W := World) Selection.t :=
  show UNICODE message title kDefaultStyle kDefaultButtons.

(** *** Vocabulary for the properties *)

(** The system converts [s] from UTF-8: the sizing call and the converting
    call that [utf8ToUtf16] makes both return a positive count. *)
Definition converts (w : World) (s : string) : bool :=
  let count := fst (converter w CP_UTF8 0 s (-1) 0) in
  (0 <? count) && (0 <? fst (converter w CP_UTF8 0 s (-1) count)).

Definition is_MessageBox (c : call) : bool :=
  match c with
  | MessageBox_ _ _ _ _ _ => true
  | _ => false
  end.

(** The flags [show] passes to [MessageBox]. *)
Definition flags_of (style : Style.t) (buttons : Buttons.t) : Z :=
  Z.lor (Z.lor MB_TASKMODAL (getIcon style)) (getButtons buttons).

(** A converter that knows 7-bit characters only: it reports failure for a
    string with any other byte, and for a buffer that is too small. *)
Definition ascii_converter (CodePage dwFlags : Z) (s : string)
    (cbMultiByte cchWideChar : Z) : Z * wstring :=
  let units := (fun c => Z.of_N (Ascii.N_of_ascii c)) <$> String.list_ascii_of_string s in
  let count := Z.of_nat (length units) + 1 in
  if forallb (fun u => u <? 128) units
  then if cchWideChar =? 0 then (count, [])
       else if count <=? cchWideChar then (count, units ++ [0]) else (0, [])
  else (0, []).

(** A session whose user presses the first button of every message box, and
    one in which no message box can be created. *)
Definition session : World := mkWorld ascii_converter (fun _ _ _ _ => IDOK) [].
Definition no_window : World := mkWorld ascii_converter (fun _ _ _ _ => 0) [].

(** The count the system reports when asked for the size of [s] in UTF-16,
    and the buffer of that size after the system has converted [s] into it. *)
Definition sized (w : World) (s : string) : Z :=
  fst (converter w CP_UTF8 0 s (-1) 0).
Definition converted (w : World) (s : string) : wstring :=
  overwrite (snd (converter w CP_UTF8 0 s (-1) (sized w s)))
    (replicate (Z.to_nat (sized w s)) 0).

(** The calls [utf8ToUtf16] makes for [s]. *)
Definition conversion_calls (w : World) (s : string) : list call :=
  let count := sized w s in
  MultiByteToWideChar_ CP_UTF8 0 s (-1) nullptr 0 count ::
  (if count <=? 0 then []
   else [MultiByteToWideChar_ CP_UTF8 0 s (-1)
           (Some (replicate (Z.to_nat count) 0)) count
           (fst (converter w CP_UTF8 0 s (-1) count))]).

(** A call hands the system a buffer of exactly the capacity it states
    (none, and capacity 0, for a sizing call). *)
Definition capacity_matches (c : call) : Prop :=
  match c with
  | MultiByteToWideChar_ _ _ _ _ (Some buffer) cchWideChar _ =>
      Z.of_nat (length buffer) = cchWideChar
  | MultiByteToWideChar_ _ _ _ _ Datatypes.None cchWideChar _ => cchWideChar = 0
  | MessageBox_ _ _ _ _ _ => True
  end.

(** The string a conversion call reads. *)
Definition source_of (c : call) : option string :=
  match c with
  | MultiByteToWideChar_ _ _ s _ _ _ _ => Some s
  | MessageBox_ _ _ _ _ _ => Datatypes.None
  end.

(** The masks of [WinUser.h] for the button set, the icon and the modality
    in the flags of a message box. *)
Definition MB_TYPEMASK : Z := 0xF.
Definition MB_ICONMASK : Z := 0xF0.
Definition MB_MODEMASK : Z := 0x3000.

End Windows.

(** ** The Win32 back-end and the free store

    [std::wstring(count, L'\0')] in [utf8ToUtf16] takes its storage from the
    free store and raises [std::bad_alloc] when there is none; nothing in
    [show] catches it, and [show] is not [noexcept].  [Windows] above
    describes the runs in which the storage is granted.  Here the free store
    is a parameter and an exception is an outcome of a computation. *)

Declare Scope throwing_scope.
Delimit Scope throwing_scope with throwing.

Module Win32Heap.

Import Windows.

Section FreeStore.

(** Whether the free store grants a wide string of so many units. *)
Variable grants : nat -> bool.

(** A computation that returns or raises. *)
Definition T (A : Type) : Type := M (W := World) (exception + A).
Definition pure {A : Type} (a : A) : T A := ret (inr a).
Definition throw {A : Type} (e : exception) : T A := ret (inl e).
(** A call that cannot raise. *)
Definition lift {A : Type} (c : M A) : T A := bind c (fun a => ret (inr a)).
(** An exception ends the computation: there is no handler in the header. *)
Definition and_then {A B : Type} (c : T A) (k : A -> T B) : T B :=
  bind c (fun r => match r with
                   | inl e => ret (inl e)
                   | inr a => k a
                   end).

Notation "'let*' x ':=' c 'in' k" := (and_then c (fun x => k))
  (at level 10, x name, c at level 100, k at level 200) : throwing_scope.

(** [std::wstring(count, c)] *)
Definition wstring_of (count : nat) (c : Z) : T wstring :=
  if grants count then pure (replicate count c) else throw bad_alloc.

Definition utf8ToUtf16 (utf8String : string) (utf16String : wstring)
    : T (bool * wstring) :=
  (let* sized := lift (MultiByteToWideChar CP_UTF8 0 utf8String (-1) nullptr 0) in
   let count := fst sized in
   if count <=? 0 then pure (false, utf16String)
   else
     let* utf16String := wstring_of (Z.to_nat count) 0 in
     let* converted :=
       lift (MultiByteToWideChar CP_UTF8 0 utf8String (-1) (Some utf16String) count) in
     pure (fst converted >? 0, default utf16String (snd converted)))%throwing.

Definition show (UNICODE : bool) (message title : string)
    (style : Style.t) (buttons : Buttons.t) : T Selection.t :=
  (let flags := MB_TASKMODAL in
   let flags := Z.lor flags (getIcon style) in
   let flags := Z.lor flags (getButtons buttons) in
   if UNICODE then
     let wideMessage : wstring := [] in
     let wideTitle : wstring := [] in
     (* !utf8ToUtf16(message, wideMessage) || !utf8ToUtf16(title, wideTitle) *)
     let* m := utf8ToUtf16 message wideMessage in
     let wideMessage := snd m in
     if negb (fst m) then pure Selection.Error
     else
       let* t := utf8ToUtf16 title wideTitle in
       let wideTitle := snd t in
       if negb (fst t) then pure Selection.Error
       else
         let messageArg := wchars (c_str wideMessage) in
         let titleArg := wchars (c_str wideTitle) in
         let* response := lift (MessageBox nullptr messageArg titleArg flags) in
         pure (getSelection response buttons)
   else
     let messageArg := chars message in
     let titleArg := chars title in
     let* response := lift (MessageBox nullptr messageArg titleArg flags) in
     pure (getSelection response buttons))%throwing.

(** Converting [s] asks the free store for a string that it does not
    grant. *)
Definition refused (w : World) (s : string) : bool :=
  (0 <? sized w s) && negb (grants (Z.to_nat (sized w s))).

End FreeStore.

(** A free store with nothing left, and one that never runs out. *)
Definition exhausted : nat -> bool := fun _ => false.
Definition plentiful : nat -> bool := fun _ => true.

End Win32Heap.

(** ** namespace std: names of the enumerators *)

Module std.

(** [std::map::at]: the mapped value, or [std::out_of_range]. *)
Definition at_ `{Countable K} {V : Type} (m : gmap K V) (k : K) : exception + V :=
  match m !! k with
  | Some v => inr v
  | Datatypes.None => inl (out_of_range "map::at")
  end.

Module boxer_detail.
Definition styleToString : gmap Style.t string :=
  list_to_map [ (Style.Info, "Info"); (Style.Warning, "Warning");
                (Style.Error, "Error"); (Style.Question, "Question") ]%string.
Definition buttonsToString : gmap Buttons.t string :=
  list_to_map [ (Buttons.OK, "OK"); (Buttons.OKCancel, "OKCancel");
                (Buttons.YesNo, "YesNo"); (Buttons.Quit, "Quit") ]%string.
Definition selectionToString : gmap Selection.t string :=
  list_to_map [ (Selection.OK, "OK"); (Selection.Cancel, "Cancel");
                (Selection.Yes, "Yes"); (Selection.No, "No");
                (Selection.Quit, "Quit"); (Selection.None, "None");
                (Selection.Error, "Error") ]%string.
End boxer_detail.

(** The three overloads of [std::to_string]. *)
Class ToString (E : Type) : Type := to_string : E -> exception + string.
#[global] Instance to_string_Style : ToString Style.t :=
  fun style => at_ boxer_detail.styleToString style.
#[global] Instance to_string_Buttons : ToString Buttons.t :=
  fun buttons => at_ boxer_detail.buttonsToString buttons.
#[global] Instance to_string_Selection : ToString Selection.t :=
  fun selection => at_ boxer_detail.selectionToString selection.

End std.


(** * Properties *)

(** ** Tactics for the lookup tables *)

Ltac by_cases_of_switch :=
  cbv [Linux.getMessageType Linux.getButtonsType Linux.getSelection
       Windows.getIcon Windows.getButtons Windows.getSelection switch
       Style.underlying Buttons.underlying Buttons.eqb
       Style.Info Style.Warning Style.Error Style.Question
       Buttons.OK Buttons.OKCancel Buttons.YesNo Buttons.Quit];
  repeat match goal with
         | |- context [Z.eqb ?a ?b] => destruct (Z.eqb_spec a b)
         end.

Lemma not_in_cons_inv {A : Type} (x y : A) (l : list A) :
  x ∉ y :: l -> x <> y /\ x ∉ l.
Proof. intros H. split; intros E; apply H; subst; by constructor. Qed.

Ltac split_not_in H :=
  repeat match type of H with
         | _ ∉ _ :: _ =>
             let E := fresh "E" in
             apply not_in_cons_inv in H; destruct H as [E H]
         end.

(** ** The response mappings *)

Lemma linux_getSelection_cases (response : Z) :
  Linux.getSelection response ∈
    [Selection.OK; Selection.Cancel; Selection.Yes; Selection.No;
     Selection.Quit; Selection.None].
Proof. by_cases_of_switch; set_solver. Qed.

Lemma windows_getSelection_cases (response : Z) (buttons : Buttons.t) :
  Windows.getSelection response buttons ∈
    [Selection.OK; Selection.Cancel; Selection.Yes; Selection.No;
     Selection.Quit; Selection.None].
Proof. by_cases_of_switch; set_solver. Qed.

Lemma not_Error_of_cases (s : Selection.t) :
  s ∈ [Selection.OK; Selection.Cancel; Selection.Yes; Selection.No;
       Selection.Quit; Selection.None] ->
  s <> Selection.Error.
Proof.
  intros H ->.
  repeat (apply elem_of_cons in H; destruct H as [H | H]; [discriminate |]).
  by apply elem_of_nil in H.
Qed.

Lemma enumerator_of_cases (s : Selection.t) :
  s ∈ [Selection.OK; Selection.Cancel; Selection.Yes; Selection.No;
       Selection.Quit; Selection.None] ->
  s ∈ Selection.enumerators.
Proof.
  unfold Selection.enumerators. rewrite !elem_of_cons, !elem_of_nil. tauto.
Qed.

(** C2: on Windows, [getButtons] gives [Buttons::Quit] the constant it gives
    [Buttons::OK], namely [MB_OK]; and [getSelection] translates the
    response [IDOK] to [Selection::Quit], which is not [Selection::OK], when
    the buttons requested were [Buttons::Quit], and to [Selection::OK] for
    the enumerators that are not [Quit]. *)
Theorem windows_quit_is_ok_button_reported_as_quit :
  Windows.getButtons Buttons.Quit = Windows.MB_OK /\
  Windows.getButtons Buttons.OK = Windows.MB_OK /\
  Windows.getSelection Windows.IDOK Buttons.Quit = Selection.Quit /\
  Selection.Quit <> Selection.OK /\
  Windows.getSelection Windows.IDOK Buttons.OK = Selection.OK /\
  Windows.getSelection Windows.IDOK Buttons.OKCancel = Selection.OK /\
  Windows.getSelection Windows.IDOK Buttons.YesNo = Selection.OK.
Proof. repeat split; try reflexivity. discriminate. Qed.

(** C4: on each platform [getSelection] is a total function of the
    response code: each code it recognises has its one [Selection] value,
    every other code gives [Selection::None], and whatever the code the
    result is an enumerator of [Selection]. *)
Theorem getSelection_total :
  (Linux.getSelection Linux.GTK_RESPONSE_OK = Selection.OK /\
   Linux.getSelection Linux.GTK_RESPONSE_CANCEL = Selection.Cancel /\
   Linux.getSelection Linux.GTK_RESPONSE_YES = Selection.Yes /\
   Linux.getSelection Linux.GTK_RESPONSE_NO = Selection.No /\
   Linux.getSelection Linux.GTK_RESPONSE_CLOSE = Selection.Quit /\
   (forall response : Z,
      response ∉ [Linux.GTK_RESPONSE_OK; Linux.GTK_RESPONSE_CANCEL;
                  Linux.GTK_RESPONSE_YES; Linux.GTK_RESPONSE_NO;
                  Linux.GTK_RESPONSE_CLOSE] ->
      Linux.getSelection response = Selection.None) /\
   (forall response : Z, Linux.getSelection response ∈ Selection.enumerators)) /\
  ((forall buttons : Buttons.t,
      Windows.getSelection Windows.IDOK buttons =
      if Buttons.eqb buttons Buttons.Quit then Selection.Quit else Selection.OK) /\
   (forall buttons : Buttons.t,
      Windows.getSelection Windows.IDCANCEL buttons = Selection.Cancel) /\
   (forall buttons : Buttons.t,
      Windows.getSelection Windows.IDYES buttons = Selection.Yes) /\
   (forall buttons : Buttons.t,
      Windows.getSelection Windows.IDNO buttons = Selection.No) /\
   (forall (response : Z) (buttons : Buttons.t),
      response ∉ [Windows.IDOK; Windows.IDCANCEL; Windows.IDYES; Windows.IDNO] ->
      Windows.getSelection response buttons = Selection.None) /\
   (forall (response : Z) (buttons : Buttons.t),
      Windows.getSelection response buttons ∈ Selection.enumerators)).
Proof.
  split; repeat split; try reflexivity.
  - intros response H. split_not_in H. by_cases_of_switch; congruence.
  - intros response. apply enumerator_of_cases, linux_getSelection_cases.
  - intros response buttons H. split_not_in H. by_cases_of_switch; congruence.
  - intros response buttons. apply enumerator_of_cases, windows_getSelection_cases.
Qed.

(** C8: on Windows, for a response other than [IDOK] the result of
    [getSelection] is the same whatever buttons were requested; at [IDOK]
    it is not. *)
Theorem windows_getSelection_buttons_only_at_IDOK :
  (forall (response : Z) (b1 b2 : Buttons.t),
     response <> Windows.IDOK ->
     Windows.getSelection response b1 = Windows.getSelection response b2) /\
  Windows.getSelection Windows.IDOK Buttons.Quit <>
  Windows.getSelection Windows.IDOK Buttons.OK.
Proof.
  split; [| discriminate].
  intros response b1 b2 H. by_cases_of_switch; congruence.
Qed.

(** ** The style and button mappings *)

(** C5: on each platform the icon mapping gives the four styles the four
    constants of the toolkit, no two of them equal, and gives a [Style] value
    that is none of the four enumerators the constant of [Style::Info]. *)
Theorem style_icons_distinct_with_Info_fallback :
  (Linux.getMessageType Style.Info = Linux.GTK_MESSAGE_INFO /\
   Linux.getMessageType Style.Warning = Linux.GTK_MESSAGE_WARNING /\
   Linux.getMessageType Style.Error = Linux.GTK_MESSAGE_ERROR /\
   Linux.getMessageType Style.Question = Linux.GTK_MESSAGE_QUESTION /\
   NoDup (Linux.getMessageType <$> Style.enumerators) /\
   (forall style : Style.t,
      style ∉ Style.enumerators ->
      Linux.getMessageType style = Linux.getMessageType Style.Info)) /\
  (Windows.getIcon Style.Info = Windows.MB_ICONINFORMATION /\
   Windows.getIcon Style.Warning = Windows.MB_ICONWARNING /\
   Windows.getIcon Style.Error = Windows.MB_ICONERROR /\
   Windows.getIcon Style.Question = Windows.MB_ICONQUESTION /\
   NoDup (Windows.getIcon <$> Style.enumerators) /\
   (forall style : Style.t,
      style ∉ Style.enumerators ->
      Windows.getIcon style = Windows.getIcon Style.Info)).
Proof.
  split; repeat split; try reflexivity.
  - vm_compute. repeat (apply NoDup_cons_2; [rewrite ?elem_of_cons, ?elem_of_nil; lia |]).
    apply NoDup_nil_2.
  - intros [v] H. unfold Style.enumerators in H. split_not_in H.
    by_cases_of_switch; subst; try reflexivity; exfalso; auto.
  - vm_compute. repeat (apply NoDup_cons_2; [rewrite ?elem_of_cons, ?elem_of_nil; lia |]).
    apply NoDup_nil_2.
  - intros [v] H. unfold Style.enumerators in H. split_not_in H.
    by_cases_of_switch; subst; try reflexivity; exfalso; auto.
Qed.

(** ** Names of the enumerators *)

Lemma at_list_to_map_None `{Countable K} {V : Type} (l : list (K * V)) (k : K) :
  k ∉ l.*1 -> std.at_ (list_to_map l : gmap K V) k = inl (out_of_range "map::at").
Proof.
  intros Hk. unfold std.at_.
  by rewrite (not_elem_of_list_to_map_1 (M := gmap K) l k Hk).
Qed.

(** C6: [std::to_string] returns the name of each of the enumerators of
    [Style], [Buttons] and [Selection], and for a value that is none of the
    enumerators of its type it returns no string but raises
    [std::out_of_range]. *)
Theorem to_string_names_or_out_of_range :
  (std.to_string Style.Info = inr "Info"%string /\
   std.to_string Style.Warning = inr "Warning"%string /\
   std.to_string Style.Error = inr "Error"%string /\
   std.to_string Style.Question = inr "Question"%string) /\
  (std.to_string Buttons.OK = inr "OK"%string /\
   std.to_string Buttons.OKCancel = inr "OKCancel"%string /\
   std.to_string Buttons.YesNo = inr "YesNo"%string /\
   std.to_string Buttons.Quit = inr "Quit"%string) /\
  (std.to_string Selection.OK = inr "OK"%string /\
   std.to_string Selection.Cancel = inr "Cancel"%string /\
   std.to_string Selection.Yes = inr "Yes"%string /\
   std.to_string Selection.No = inr "No"%string /\
   std.to_string Selection.Quit = inr "Quit"%string /\
   std.to_string Selection.None = inr "None"%string /\
   std.to_string Selection.Error = inr "Error"%string) /\
  (forall style : Style.t,
     style ∉ Style.enumerators ->
     exists what, std.to_string style = inl (out_of_range what)) /\
  (forall buttons : Buttons.t,
     buttons ∉ Buttons.enumerators ->
     exists what, std.to_string buttons = inl (out_of_range what)) /\
  (forall selection : Selection.t,
     selection ∉ Selection.enumerators ->
     exists what, std.to_string selection = inl (out_of_range what)).
Proof.
  split; [| split; [| split]]; [by vm_compute .. |].
  split; [| split]; intros e He; eexists; by apply at_list_to_map_None.
Qed.

(** ** [show] on GTK *)

Lemma linux_show_init_fails (fuel : nat) (m t : string) (s : Style.t) (b : Buttons.t)
    (w : Linux.World) :
  Linux.can_init w = false ->
  Linux.show fuel m t s b w =
  Some (Selection.Error, Linux.logged (Linux.gtk_init_check_ false) w).
Proof.
  intros H. unfold Linux.show, bind, Linux.gtk_init_check. rewrite H. cbn.
  unfold Linux.can_init in H. apply orb_false_elim in H as [Hi _].
  destruct w; cbn in *. by rewrite Hi.
Qed.

Lemma linux_show_init_succeeds (fuel : nat) (m t : string) (s : Style.t) (b : Buttons.t)
    (w : Linux.World) :
  Linux.can_init w = true ->
  exists w1 : Linux.World,
    (Linux.main_context w1 = Linux.main_context w /\
     Linux.iterations w1 = Linux.iterations w) /\
    Linux.show fuel m t s b w =
    match while_ fuel (Linux.g_main_context_iteration nullptr false) (ret tt) w1 with
    | Some (_, w') => Some (Linux.getSelection (Linux.user w), w')
    | None => None
    end.
Proof.
  intros H. eexists. split.
  2: { unfold Linux.show, bind at 1, Linux.gtk_init_check. rewrite H.
       cbv beta iota delta [negb]. cbn -[while_ Linux.getSelection].
       unfold bind at 1. reflexivity. }
  split; reflexivity.
Qed.

Lemma while_S {W : Type} (fuel : nat) (cond : M (W := W) bool) (body : M unit) (w : W) :
  while_ (S fuel) cond body w =
  match cond w with
  | Some (c, w1) =>
      if c then match body w1 with
                | Some (_, w2) => while_ fuel cond body w2
                | None => None
                end
      else Some (tt, w1)
  | None => None
  end.
Proof. cbn. unfold bind. destruct (cond w) as [[[] ?] |]; reflexivity. Qed.

Lemma linux_drain_returns (fuel : nat) :
  forall w : Linux.World,
    Linux.idle_before fuel w ->
    exists w' : Linux.World,
      while_ fuel (Linux.g_main_context_iteration nullptr false) (ret tt) w = Some (tt, w').
Proof.
  induction fuel as [| fuel IH]; intros w (k & Hk & Hidle); [lia |].
  rewrite while_S.
  set (loop := while_ fuel _ _) in *.
  unfold Linux.g_main_context_iteration.
  destruct (Linux.main_context w (Linux.iterations w)) eqn:E.
  - unfold ret. apply IH.
    destruct k as [| k]; [rewrite Nat.add_0_r in Hidle; congruence |].
    exists k. split; [lia |]. cbn. by rewrite <- Nat.add_succ_r.
  - eexists. reflexivity.
Qed.

(** ** [show] on Win32 *)

Lemma windows_utf8ToUtf16_spec (s : string) (u : Windows.wstring) (w : Windows.World) :
  exists (u' : Windows.wstring) (calls : list Windows.call),
    Windows.utf8ToUtf16 s u w =
    Some ((Windows.converts w s, u'),
          Windows.mkWorld (Windows.converter w) (Windows.user w) (Windows.log w ++ calls)) /\
    Forall (fun c => Windows.is_MessageBox c = false) calls.
Proof.
  unfold Windows.utf8ToUtf16, Windows.converts, bind, Windows.MultiByteToWideChar,
    Windows.logged, ret, nullptr.
  cbn [fst snd Windows.converter Windows.user Windows.log].
  set (count := fst (Windows.converter w Windows.CP_UTF8 0 s (-1) 0)).
  destruct (Z.leb_spec count 0) as [Hle | Hgt].
  - replace (0 <? count) with false by (symmetry; apply Z.ltb_ge; lia).
    eexists _, [_]. split; [reflexivity |]. by repeat constructor.
  - replace (0 <? count) with true by (symmetry; apply Z.ltb_lt; lia).
    cbn [fst snd Windows.converter Windows.user Windows.log].
    rewrite Z.gtb_ltb, <- app_assoc. cbn [andb default from_option id].
    eexists _, [_; _]. split; [reflexivity |]. by repeat constructor.
Qed.

Lemma windows_show_ansi (m t : string) (s : Style.t) (b : Buttons.t) (w : Windows.World) :
  let r := Windows.user w nullptr (Windows.chars m) (Windows.chars t) (Windows.flags_of s b) in
  Windows.show false m t s b w =
  Some (Windows.getSelection r b,
        Windows.logged
          (Windows.MessageBox_ nullptr (Windows.chars m) (Windows.chars t)
             (Windows.flags_of s b) r) w).
Proof. reflexivity. Qed.

Lemma windows_show_unicode (m t : string) (s : Style.t) (b : Buttons.t) (w : Windows.World) :
  exists (sel : Selection.t) (calls : list Windows.call),
    Windows.show true m t s b w =
    Some (sel, Windows.mkWorld (Windows.converter w) (Windows.user w) (Windows.log w ++ calls)) /\
    if Windows.converts w m && Windows.converts w t
    then exists r : Z, sel = Windows.getSelection r b
    else sel = Selection.Error /\ Forall (fun c => Windows.is_MessageBox c = false) calls.
Proof.
  unfold Windows.show. cbv zeta. unfold bind at 1.
  destruct (windows_utf8ToUtf16_spec m [] w) as (um & cm & -> & Hm).
  cbn [fst snd]. destruct (Windows.converts w m); cbn [negb andb].
  - unfold bind at 1.
    match goal with
    | |- context [Windows.utf8ToUtf16 t [] ?w1] =>
        destruct (windows_utf8ToUtf16_spec t [] w1) as (ut & ct & -> & Ht)
    end.
    cbn [fst snd Windows.converter Windows.user Windows.log].
    change (Windows.converts (Windows.mkWorld (Windows.converter w) _ _) t)
      with (Windows.converts w t).
    destruct (Windows.converts w t); cbn [negb].
    + unfold bind, Windows.MessageBox, Windows.logged, ret.
      cbn [Windows.converter Windows.user Windows.log].
      rewrite <- !app_assoc. eexists _, _. split; [reflexivity |]. by eexists.
    + unfold ret. rewrite <- app_assoc. eexists _, _. split; [reflexivity |].
      split; [reflexivity |]. by apply Forall_app.
  - unfold ret. eexists _, _. split; [reflexivity |]. by split.
Qed.

Lemma linux_show_returns_enumerator (fuel : nat) (m t : string) (s : Style.t)
    (b : Buttons.t) (w w' : Linux.World) (sel : Selection.t) :
  Linux.show fuel m t s b w = Some (sel, w') ->
  (Linux.can_init w = false /\ sel = Selection.Error /\
   w' = Linux.logged (Linux.gtk_init_check_ false) w) \/
  (Linux.can_init w = true /\ sel = Linux.getSelection (Linux.user w)).
Proof.
  intros H. destruct (Linux.can_init w) eqn:E.
  - right. split; [reflexivity |].
    destruct (linux_show_init_succeeds fuel m t s b w E) as (w1 & _ & Hshow).
    rewrite Hshow in H. destruct (while_ _ _ _ w1) as [[[] w2] |]; congruence.
  - left. rewrite (linux_show_init_fails fuel m t s b w E) in H.
    split; [reflexivity |]. split; congruence.
Qed.

(** ** The contract of [show] *)

(** C3: on each platform the three convenience overloads are the
    four-argument [show] with [Style::Info] and [Buttons::OK] filled in for
    what they leave out. *)
Theorem show_overloads_fill_in_defaults :
  (forall (fuel : nat) (m t : string) (s : Style.t) (b : Buttons.t),
     Linux.show_default fuel m t = Linux.show fuel m t Style.Info Buttons.OK /\
     Linux.show_style fuel m t s = Linux.show fuel m t s Buttons.OK /\
     Linux.show_buttons fuel m t b = Linux.show fuel m t Style.Info b) /\
  (forall (UNICODE : bool) (m t : string) (s : Style.t) (b : Buttons.t),
     Windows.show_default UNICODE m t = Windows.show UNICODE m t Style.Info Buttons.OK /\
     Windows.show_style UNICODE m t s = Windows.show UNICODE m t s Buttons.OK /\
     Windows.show_buttons UNICODE m t b = Windows.show UNICODE m t Style.Info b).
Proof.
  split; intros;
    unfold Linux.show_default, Linux.show_style, Linux.show_buttons,
      Windows.show_default, Windows.show_style, Windows.show_buttons,
      kDefaultStyle, kDefaultButtons;
    auto.
Qed.

(** C7: when [show] returns [Selection::Error] for a toolkit that cannot
    be initialised (GTK) or a text that does not convert (Win32 with
    [UNICODE]), the world it leaves is the world it found with only the
    failed calls added to the log: [gtk_init_check] alone on GTK, calls of
    [MultiByteToWideChar] on Win32; no widget exists that did not before, and
    no call that constructs or runs a dialog was made. *)
Theorem show_error_before_any_dialog :
  (forall (fuel : nat) (m t : string) (s : Style.t) (b : Buttons.t) (w : Linux.World),
     Linux.can_init w = false ->
     exists calls : list Linux.call,
       Linux.show fuel m t s b w =
       Some (Selection.Error,
             Linux.mkWorld (Linux.display w) (Linux.user w) (Linux.main_context w)
               (Linux.initialised w) (Linux.live w) (Linux.next w)
               (Linux.iterations w) (Linux.log w ++ calls)) /\
       calls = [Linux.gtk_init_check_ false] /\
       Forall (fun c => Linux.is_dialog_call c = false) calls) /\
  (forall (m t : string) (s : Style.t) (b : Buttons.t) (w : Windows.World),
     Windows.converts w m && Windows.converts w t = false ->
     exists calls : list Windows.call,
       Windows.show true m t s b w =
       Some (Selection.Error,
             Windows.mkWorld (Windows.converter w) (Windows.user w)
               (Windows.log w ++ calls)) /\
       Forall (fun c => Windows.is_MessageBox c = false) calls).
Proof.
  split.
  - intros fuel m t s b w H. eexists. split; [| split; [reflexivity |]].
    + by rewrite (linux_show_init_fails fuel m t s b w H).
    + by repeat constructor.
  - intros m t s b w H.
    destruct (windows_show_unicode m t s b w) as (sel & calls & Hshow & Hsel).
    rewrite H in Hsel. destruct Hsel as [-> Hcalls]. eauto.
Qed.

(** C9: on Win32 without [UNICODE], [show] makes one call, to
    [MessageBox] with the texts as they are, and returns what
    [getSelection] makes of the response: never [Selection::Error], and
    [Selection::None] when [MessageBox] returned 0. *)
Theorem windows_ansi_show_never_Error :
  forall (m t : string) (s : Style.t) (b : Buttons.t) (w : Windows.World),
  exists (sel : Selection.t) (r : Z),
    Windows.show false m t s b w =
    Some (sel,
          Windows.mkWorld (Windows.converter w) (Windows.user w)
            (Windows.log w ++
             [Windows.MessageBox_ nullptr (Windows.chars m) (Windows.chars t)
                (Windows.flags_of s b) r])) /\
    r = Windows.user w nullptr (Windows.chars m) (Windows.chars t) (Windows.flags_of s b) /\
    sel <> Selection.Error /\
    (r = 0 -> sel = Selection.None).
Proof.
  intros m t s b w. eexists _, _. split; [apply windows_show_ansi |].
  split; [reflexivity |]. split.
  - apply not_Error_of_cases, windows_getSelection_cases.
  - by intros ->.
Qed.

(** C10: on neither platform does [getSelection] return
    [Selection::Error]: its results are OK, Cancel, Yes, No, Quit and None.
    So when [show] returns [Selection::Error] the guard before the dialog
    failed: on GTK the toolkit could not be initialised and nothing but
    [gtk_init_check] was called; on Win32 the build has [UNICODE], a text did
    not convert, and [MessageBox] was not called. *)
Theorem getSelection_never_Error :
  (forall response : Z,
     Linux.getSelection response ∈
       [Selection.OK; Selection.Cancel; Selection.Yes; Selection.No;
        Selection.Quit; Selection.None]) /\
  (forall (response : Z) (buttons : Buttons.t),
     Windows.getSelection response buttons ∈
       [Selection.OK; Selection.Cancel; Selection.Yes; Selection.No;
        Selection.Quit; Selection.None]) /\
  (forall response : Z, Linux.getSelection response <> Selection.Error) /\
  (forall (response : Z) (buttons : Buttons.t),
     Windows.getSelection response buttons <> Selection.Error) /\
  (forall (fuel : nat) (m t : string) (s : Style.t) (b : Buttons.t) (w w' : Linux.World),
     Linux.show fuel m t s b w = Some (Selection.Error, w') ->
     Linux.can_init w = false /\
     w' = Linux.logged (Linux.gtk_init_check_ false) w) /\
  (forall (UNICODE : bool) (m t : string) (s : Style.t) (b : Buttons.t)
          (w w' : Windows.World),
     Windows.show UNICODE m t s b w = Some (Selection.Error, w') ->
     UNICODE = true /\
     Windows.converts w m && Windows.converts w t = false /\
     exists calls : list Windows.call,
       Windows.log w' = Windows.log w ++ calls /\
       Forall (fun c => Windows.is_MessageBox c = false) calls).
Proof.
  split; [exact linux_getSelection_cases |].
  split; [exact windows_getSelection_cases |].
  split; [intros r; apply not_Error_of_cases, linux_getSelection_cases |].
  split; [intros r b; apply not_Error_of_cases, windows_getSelection_cases |].
  split.
  - intros fuel m t s b w w' H.
    apply linux_show_returns_enumerator in H as [(E & _ & ->) | (_ & H)]; [done |].
    symmetry in H. by apply not_Error_of_cases in H; [| apply linux_getSelection_cases].
  - intros [] m t s b w w' H.
    + split; [reflexivity |].
      destruct (windows_show_unicode m t s b w) as (sel & calls & Hshow & Hsel).
      rewrite Hshow in H. injection H as -> <-.
      destruct (_ && _).
      * destruct Hsel as [r Hr]. symmetry in Hr.
        by apply not_Error_of_cases in Hr; [| apply windows_getSelection_cases].
      * split; [reflexivity |]. destruct Hsel as [_ Hcalls]. eauto.
    + rewrite windows_show_ansi in H. injection H as H _.
      by apply not_Error_of_cases in H; [| apply windows_getSelection_cases].
Qed.

(** ** The properties at work on sample worlds *)

(** The response 0 is recognised by neither mapping. *)
Lemma getSelection_total_witness :
  Linux.getSelection 0 = Selection.None /\
  Windows.getSelection 0 Buttons.Quit = Selection.None.
Proof.
  destruct getSelection_total as [(_ & _ & _ & _ & _ & HL & _) (_ & _ & _ & _ & HW & _)].
  split; [apply HL | apply HW]; compute_done.
Defined.

(** [IDCANCEL] reads the same under [Quit] and [OKCancel]. *)
Lemma windows_getSelection_buttons_only_at_IDOK_witness :
  Windows.getSelection Windows.IDCANCEL Buttons.Quit =
  Windows.getSelection Windows.IDCANCEL Buttons.OKCancel.
Proof.
  apply (proj1 windows_getSelection_buttons_only_at_IDOK). vm_compute. discriminate.
Defined.

(** [static_cast<Style>(7)] and [static_cast<Style>(-1)] get the Info icon. *)
Lemma style_icons_distinct_with_Info_fallback_witness :
  Linux.getMessageType (Style.static_cast 7) = Linux.getMessageType Style.Info /\
  Windows.getIcon (Style.static_cast (-1)) = Windows.getIcon Style.Info.
Proof.
  destruct style_icons_distinct_with_Info_fallback
    as [(_ & _ & _ & _ & _ & HL) (_ & _ & _ & _ & _ & HW)].
  split; [apply HL | apply HW]; compute_done.
Defined.

(** One value past the end of each enumeration, or before its start. *)
Lemma to_string_names_or_out_of_range_witness :
  (exists what, std.to_string (Style.static_cast 4) = inl (out_of_range what)) /\
  (exists what, std.to_string (Buttons.static_cast (-1)) = inl (out_of_range what)) /\
  (exists what, std.to_string (Selection.static_cast 7) = inl (out_of_range what)).
Proof.
  destruct to_string_names_or_out_of_range as (_ & _ & _ & HS & HB & HR).
  split; [apply HS | split; [apply HB | apply HR]]; compute_done.
Defined.

(** The two failing calls, and the logs they leave. *)
Lemma show_error_before_any_dialog_witness :
  (exists calls : list Linux.call,
     Linux.show 0 "Disk full" "Backup" Style.Error Buttons.OK Linux.headless =
     Some (Selection.Error,
           Linux.mkWorld false 0 (Linux.main_context Linux.headless) false ∅ 0%nat 0%nat
             ([] ++ calls)) /\
     calls = [Linux.gtk_init_check_ false] /\
     Forall (fun c => Linux.is_dialog_call c = false) calls) /\
  (exists calls : list Windows.call,
     Windows.show true "Menu" "café" Style.Info Buttons.OK Windows.session =
     Some (Selection.Error,
           Windows.mkWorld Windows.ascii_converter (Windows.user Windows.session)
             ([] ++ calls)) /\
     Forall (fun c => Windows.is_MessageBox c = false) calls).
Proof.
  destruct show_error_before_any_dialog as [HL HW]. split.
  - apply (HL 0%nat "Disk full" "Backup" Style.Error Buttons.OK Linux.headless).
    reflexivity.
  - apply (HW "Menu" "café" Style.Info Buttons.OK Windows.session).
    vm_compute. reflexivity.
Defined.

(** A message box that could not be created is reported as [None]. *)
Lemma windows_ansi_show_never_Error_witness :
  exists w' : Windows.World,
    Windows.show false "Disk full" "Backup" Style.Warning Buttons.OKCancel
      Windows.no_window =
    Some (Selection.None, w').
Proof.
  destruct (windows_ansi_show_never_Error "Disk full" "Backup" Style.Warning
              Buttons.OKCancel Windows.no_window)
    as (sel & r & Hshow & Hr & _ & Hnone).
  rewrite <- (Hnone Hr). eexists. exact Hshow.
Defined.

(** From the result [Error] back to the guard that failed. *)
Lemma getSelection_never_Error_witness :
  Linux.can_init Linux.headless = false /\
  Windows.converts Windows.session "café" && Windows.converts Windows.session "Menu" = false.
Proof.
  destruct getSelection_never_Error as (_ & _ & _ & _ & HL & HW). split.
  - eapply (HL 0%nat "Disk full" "Backup" Style.Error Buttons.OK Linux.headless).
    reflexivity.
  - eapply (HW true "café" "Menu" Style.Info Buttons.OK Windows.session).
    vm_compute. reflexivity.
Defined.

(** * Further properties of the code *)

(** ** The button mappings *)

(** X1: on GTK the four button sets get four different constants
    ([Quit] the CLOSE button), and a [Buttons] value that is none of the
    four enumerators gets the constant of [Buttons::OK]. *)
Theorem linux_getButtonsType_distinct_with_OK_fallback :
  Linux.getButtonsType Buttons.OK = Linux.GTK_BUTTONS_OK /\
  Linux.getButtonsType Buttons.OKCancel = Linux.GTK_BUTTONS_OK_CANCEL /\
  Linux.getButtonsType Buttons.YesNo = Linux.GTK_BUTTONS_YES_NO /\
  Linux.getButtonsType Buttons.Quit = Linux.GTK_BUTTONS_CLOSE /\
  NoDup (Linux.getButtonsType <$> Buttons.enumerators) /\
  (forall buttons : Buttons.t,
     buttons ∉ Buttons.enumerators ->
     Linux.getButtonsType buttons = Linux.getButtonsType Buttons.OK).
Proof.
  repeat split; try reflexivity.
  - vm_compute. repeat (apply NoDup_cons_2; [rewrite ?elem_of_cons, ?elem_of_nil; lia |]).
    apply NoDup_nil_2.
  - intros [v] H. unfold Buttons.enumerators in H. split_not_in H.
    by_cases_of_switch; subst; try reflexivity; exfalso; auto.
Qed.

(** OK cannot be told from CLOSE by accident: a value past the end. *)
Lemma linux_getButtonsType_distinct_with_OK_fallback_witness :
  Linux.getButtonsType (Buttons.static_cast 4) = Linux.getButtonsType Buttons.OK.
Proof.
  destruct linux_getButtonsType_distinct_with_OK_fallback as (_ & _ & _ & _ & _ & H).
  apply H. compute_done.
Defined.

(** X2: on Win32 two [Buttons] values get the same constant from
    [getButtons] exactly when they are equal or neither is [OKCancel] or
    [YesNo]: [OK], [Quit] and every value that is no enumerator share
    [MB_OK], and nothing else collides. *)
Theorem windows_getButtons_collisions :
  forall b1 b2 : Buttons.t,
    Windows.getButtons b1 = Windows.getButtons b2 <->
    b1 = b2 \/
    ((b1 ∉ [Buttons.OKCancel; Buttons.YesNo]) /\
     (b2 ∉ [Buttons.OKCancel; Buttons.YesNo])).
Proof.
  intros [v1] [v2]. rewrite !not_elem_of_cons, !elem_of_nil.
  unfold Buttons.OKCancel, Buttons.YesNo.
  split.
  - by_cases_of_switch; subst; intros H; try discriminate H; auto;
      right; repeat split; try (intros [= ?]; lia); tauto.
  - intros [[= ->] | ((H1 & H2 & _) & (H3 & H4 & _))]; [reflexivity |].
    by_cases_of_switch; subst; try reflexivity; exfalso; auto.
Qed.

(** ** What each selection says about the response *)

(** X3: on GTK each selection other than [None] comes from exactly one
    response code, and [None] from exactly the codes that are none of the
    five; so two responses are reported alike only when they are equal or
    both unrecognised. *)
Theorem linux_getSelection_preimages :
  forall response : Z,
    (Linux.getSelection response = Selection.OK <-> response = Linux.GTK_RESPONSE_OK) /\
    (Linux.getSelection response = Selection.Cancel <->
     response = Linux.GTK_RESPONSE_CANCEL) /\
    (Linux.getSelection response = Selection.Yes <-> response = Linux.GTK_RESPONSE_YES) /\
    (Linux.getSelection response = Selection.No <-> response = Linux.GTK_RESPONSE_NO) /\
    (Linux.getSelection response = Selection.Quit <->
     response = Linux.GTK_RESPONSE_CLOSE) /\
    (Linux.getSelection response = Selection.None <->
     response ∉ [Linux.GTK_RESPONSE_OK; Linux.GTK_RESPONSE_CANCEL;
                 Linux.GTK_RESPONSE_YES; Linux.GTK_RESPONSE_NO;
                 Linux.GTK_RESPONSE_CLOSE]).
Proof.
  intros response. rewrite !not_elem_of_cons, elem_of_nil.
  by_cases_of_switch; subst;
    repeat split; intros; try discriminate; try reflexivity; try tauto;
    try (exfalso; lia); try (exfalso; unfold Linux.GTK_RESPONSE_OK,
      Linux.GTK_RESPONSE_CANCEL, Linux.GTK_RESPONSE_YES, Linux.GTK_RESPONSE_NO,
      Linux.GTK_RESPONSE_CLOSE in *; intuition lia).
Qed.

(** X4: on Win32 [Selection::Quit] is returned exactly for the response
    [IDOK] to a box requested with [Buttons::Quit], [Selection::OK] exactly
    for [IDOK] to any other request, Cancel, Yes and No exactly for their
    codes, and [None] exactly for the codes that are none of the four. *)
Theorem windows_getSelection_preimages :
  forall (response : Z) (buttons : Buttons.t),
    (Windows.getSelection response buttons = Selection.Quit <->
     response = Windows.IDOK /\ buttons = Buttons.Quit) /\
    (Windows.getSelection response buttons = Selection.OK <->
     response = Windows.IDOK /\ buttons <> Buttons.Quit) /\
    (Windows.getSelection response buttons = Selection.Cancel <->
     response = Windows.IDCANCEL) /\
    (Windows.getSelection response buttons = Selection.Yes <->
     response = Windows.IDYES) /\
    (Windows.getSelection response buttons = Selection.No <->
     response = Windows.IDNO) /\
    (Windows.getSelection response buttons = Selection.None <->
     response ∉ [Windows.IDOK; Windows.IDCANCEL; Windows.IDYES; Windows.IDNO]).
Proof.
  intros response [v]. rewrite !not_elem_of_cons, elem_of_nil.
  unfold Buttons.Quit.
  by_cases_of_switch; subst;
    repeat split; intros; try discriminate; try reflexivity; try tauto;
    try congruence;
    try (exfalso; unfold Windows.IDOK, Windows.IDCANCEL, Windows.IDYES,
           Windows.IDNO in *; intuition (try lia; try congruence)).
Qed.

(** ** Names identify enumerators *)

Lemma at_list_to_map_inr `{Countable K} {V : Type} (l : list (K * V)) (k : K) (v : V) :
  std.at_ (list_to_map l : gmap K V) k = inr v -> k ∈ l.*1.
Proof.
  intros Hat. destruct (decide (k ∈ l.*1)) as [| Hk]; [done |].
  rewrite (at_list_to_map_None l k Hk) in Hat. discriminate.
Qed.

Ltac by_enumerators H1 H2 :=
  repeat (apply elem_of_cons in H1; destruct H1 as [-> | H1]);
  [.. | by apply elem_of_nil in H1];
  (repeat (apply elem_of_cons in H2; destruct H2 as [-> | H2]);
   [.. | by apply elem_of_nil in H2]).

(** X5: [std::to_string] returns a string exactly for the enumerators, and
    within one enumeration no two values have the same name: the name
    tells which value it was. *)
Theorem to_string_names_identify_enumerators :
  (forall style : Style.t,
     (exists name, std.to_string style = inr name) <-> style ∈ Style.enumerators) /\
  (forall buttons : Buttons.t,
     (exists name, std.to_string buttons = inr name) <-> buttons ∈ Buttons.enumerators) /\
  (forall selection : Selection.t,
     (exists name, std.to_string selection = inr name) <->
     selection ∈ Selection.enumerators) /\
  (forall (s1 s2 : Style.t) (name : string),
     std.to_string s1 = inr name -> std.to_string s2 = inr name -> s1 = s2) /\
  (forall (b1 b2 : Buttons.t) (name : string),
     std.to_string b1 = inr name -> std.to_string b2 = inr name -> b1 = b2) /\
  (forall (r1 r2 : Selection.t) (name : string),
     std.to_string r1 = inr name -> std.to_string r2 = inr name -> r1 = r2).
Proof.
  assert (HS : forall (e : Style.t) n, std.to_string e = inr n -> e ∈ Style.enumerators)
    by (intros e n H; exact (at_list_to_map_inr _ _ _ H)).
  assert (HB : forall (e : Buttons.t) n, std.to_string e = inr n -> e ∈ Buttons.enumerators)
    by (intros e n H; exact (at_list_to_map_inr _ _ _ H)).
  assert (HR : forall (e : Selection.t) n,
             std.to_string e = inr n -> e ∈ Selection.enumerators)
    by (intros e n H; exact (at_list_to_map_inr _ _ _ H)).
  split; [| split; [| split; [| split; [| split]]]].
  - intros e. split; [intros [n H]; eauto |]. intros H.
    repeat (apply elem_of_cons in H; destruct H as [-> | H]);
      [.. | by apply elem_of_nil in H]; eexists; by vm_compute.
  - intros e. split; [intros [n H]; eauto |]. intros H.
    repeat (apply elem_of_cons in H; destruct H as [-> | H]);
      [.. | by apply elem_of_nil in H]; eexists; by vm_compute.
  - intros e. split; [intros [n H]; eauto |]. intros H.
    repeat (apply elem_of_cons in H; destruct H as [-> | H]);
      [.. | by apply elem_of_nil in H]; eexists; by vm_compute.
  - intros e1 e2 n H1 H2. pose proof (HS _ _ H1) as E1. pose proof (HS _ _ H2) as E2.
    rewrite <- H2 in H1. clear H2. by_enumerators E1 E2;
      first [reflexivity | vm_compute in H1; discriminate H1].
  - intros e1 e2 n H1 H2. pose proof (HB _ _ H1) as E1. pose proof (HB _ _ H2) as E2.
    rewrite <- H2 in H1. clear H2. by_enumerators E1 E2;
      first [reflexivity | vm_compute in H1; discriminate H1].
  - intros e1 e2 n H1 H2. pose proof (HR _ _ H1) as E1. pose proof (HR _ _ H2) as E2.
    rewrite <- H2 in H1. clear H2. by_enumerators E1 E2;
      first [reflexivity | vm_compute in H1; discriminate H1].
Qed.

(** The value named "Quit" among the selections is [Selection::Quit]. *)
Lemma to_string_names_identify_enumerators_witness :
  Selection.static_cast 4 = Selection.Quit.
Proof.
  destruct to_string_names_identify_enumerators as (_ & _ & _ & _ & _ & H).
  apply (H (Selection.static_cast 4) Selection.Quit "Quit"%string); by vm_compute.
Defined.

(** ** A run of [show] on GTK, call by call *)

Lemma linux_show_unfold (fuel : nat) (m t : string) (s : Style.t) (b : Buttons.t)
    (w : Linux.World) :
  Linux.can_init w = true ->
  Linux.show fuel m t s b w =
  match while_ fuel (Linux.g_main_context_iteration nullptr false) (ret tt)
          (Linux.shown m t s b w) with
  | Some (_, w') => Some (Linux.getSelection (Linux.user w), w')
  | None => None
  end.
Proof.
  intros H. unfold Linux.show, bind at 1, Linux.gtk_init_check. rewrite H.
  cbv beta iota delta [negb].
  cbn -[while_ Linux.getSelection Linux.getMessageType Linux.getButtonsType].
  unfold bind at 1, Linux.logged, Linux.shown, Linux.dialog_calls.
  cbn [Linux.display Linux.user Linux.main_context Linux.initialised Linux.live
       Linux.next Linux.iterations Linux.log].
  rewrite <- !app_assoc. reflexivity.
Qed.

Lemma linux_drain_exact (k : nat) :
  forall (fuel : nat) (w : Linux.World),
    (k < fuel)%nat ->
    Linux.first_idle k w ->
    while_ fuel (Linux.g_main_context_iteration nullptr false) (ret tt) w =
    Some (tt, Linux.mkWorld (Linux.display w) (Linux.user w) (Linux.main_context w)
                (Linux.initialised w) (Linux.live w) (Linux.next w)
                (Linux.iterations w + S k) (Linux.log w ++ Linux.drain_calls k)).
Proof.
  induction k as [| k IH]; intros [| fuel] w Hk [Hbusy Hidle]; try lia;
    rewrite while_S; set (loop := while_ fuel _ _) in *;
    unfold Linux.g_main_context_iteration, Linux.logged;
    cbn [Linux.display Linux.user Linux.main_context Linux.initialised Linux.live
         Linux.next Linux.iterations Linux.log].
  - rewrite Nat.add_0_r in Hidle. rewrite Hidle, Nat.add_1_r. reflexivity.
  - assert (E : Linux.main_context w (Linux.iterations w) = true)
      by (rewrite <- (Nat.add_0_r (Linux.iterations w)); apply Hbusy; lia).
    rewrite E. unfold ret at 1. subst loop.
    rewrite IH; [| lia |].
    + cbn [Linux.display Linux.user Linux.main_context Linux.initialised Linux.live
           Linux.next Linux.iterations Linux.log].
      unfold Linux.drain_calls. cbn [replicate]. rewrite <- !app_assoc.
      replace (S (Linux.iterations w) + S k)%nat
        with (Linux.iterations w + S (S k))%nat by lia.
      reflexivity.
    + split; cbn [Linux.main_context Linux.iterations].
      * intros j Hj. rewrite Nat.add_succ_comm. apply Hbusy. lia.
      * by rewrite Nat.add_succ_comm.
Qed.

Lemma linux_drain_None_iff (fuel : nat) :
  forall w : Linux.World,
    while_ fuel (Linux.g_main_context_iteration nullptr false) (ret tt) w = None <->
    (forall j : nat, (j < fuel)%nat ->
       Linux.main_context w (Linux.iterations w + j)%nat = true).
Proof.
  induction fuel as [| fuel IH]; intros w.
  - split; [intros _ j Hj; lia | reflexivity].
  - rewrite while_S. set (loop := while_ fuel _ _) in *.
    unfold Linux.g_main_context_iteration, Linux.logged.
    destruct (Linux.main_context w (Linux.iterations w)) eqn:E.
    + unfold ret at 1. rewrite IH.
      cbn [Linux.main_context Linux.iterations]. split.
      * intros H [| j] Hj; [by rewrite Nat.add_0_r |].
        rewrite <- Nat.add_succ_comm. apply H. lia.
      * intros H j Hj. rewrite Nat.add_succ_comm. apply H. lia.
    + split; [discriminate |]. intros H.
      specialize (H 0%nat). rewrite Nat.add_0_r in H. rewrite H in E by lia.
      discriminate.
Qed.

Lemma linux_drain_inv (fuel : nat) :
  forall (w w' : Linux.World),
    while_ fuel (Linux.g_main_context_iteration nullptr false) (ret tt) w = Some (tt, w') ->
    exists k : nat, (k < fuel)%nat /\ Linux.first_idle k w.
Proof.
  induction fuel as [| fuel IH]; intros w w'; [discriminate |].
  rewrite while_S. set (loop := while_ fuel _ _) in *.
  unfold Linux.g_main_context_iteration, Linux.logged.
  destruct (Linux.main_context w (Linux.iterations w)) eqn:E.
  - unfold ret at 1. intros H. apply IH in H as (k & Hk & Hbusy & Hidle).
    cbn [Linux.main_context Linux.iterations] in Hbusy, Hidle.
    exists (S k). split; [lia |]. split.
    + intros [| j] Hj; [by rewrite Nat.add_0_r |].
      rewrite <- Nat.add_succ_comm. apply Hbusy. lia.
    + by rewrite <- Nat.add_succ_comm.
  - intros _. exists 0%nat. split; [lia |]. split; [intros j Hj; lia |].
    by rewrite Nat.add_0_r.
Qed.

(** X6: a run of [show] on GTK that gets past [gtk_init_check] makes
    these calls and no others, in this order: it creates the parent, then
    the dialog (with the type and buttons of the two mappings and the
    message as the argument of the format "%s"), sets the title, centres both,
    runs the dialog, destroys the dialog and then the parent, and iterates
    the main context until the first iteration that dispatches nothing.  It
    returns [getSelection] of what the dialog run returned. *)
Theorem linux_show_call_by_call :
  forall (fuel k : nat) (m t : string) (s : Style.t) (b : Buttons.t) (w : Linux.World),
    Linux.can_init w = true ->
    Linux.first_idle k w ->
    (k < fuel)%nat ->
    exists w' : Linux.World,
      Linux.show fuel m t s b w = Some (Linux.getSelection (Linux.user w), w') /\
      Linux.log w' =
        Linux.log w ++
        Linux.dialog_calls m t s b (Linux.next w) (S (Linux.next w)) (Linux.user w) ++
        Linux.drain_calls k /\
      Linux.iterations w' = (Linux.iterations w + S k)%nat /\
      Linux.next w' = S (S (Linux.next w)) /\
      Linux.initialised w' = true.
Proof.
  intros fuel k m t s b w Hinit Hidle Hk.
  rewrite (linux_show_unfold fuel m t s b w Hinit).
  rewrite (linux_drain_exact k fuel (Linux.shown m t s b w) Hk Hidle).
  eexists. split; [reflexivity |]. cbn. rewrite <- app_assoc. auto.
Qed.

(** Two events are left on the desktop: eleven calls, then three iterations. *)
Lemma linux_show_call_by_call_witness :
  exists w' : Linux.World,
    Linux.show 3 "Disk full" "Backup" Style.Error Buttons.Quit Linux.desktop =
    Some (Selection.Quit, w') /\
    Linux.log w' =
      Linux.dialog_calls "Disk full" "Backup" Style.Error Buttons.Quit 0%nat 1%nat
        Linux.GTK_RESPONSE_CLOSE ++
      Linux.drain_calls 2 /\
    Linux.iterations w' = 3%nat /\
    Linux.next w' = 2%nat /\
    Linux.initialised w' = true.
Proof.
  apply (linux_show_call_by_call 3 2 "Disk full" "Backup" Style.Error Buttons.Quit
           Linux.desktop).
  - reflexivity.
  - split; [| reflexivity]. intros [| [| j]] Hj; [reflexivity | reflexivity | lia].
  - lia.
Defined.

(** X7: [show] on GTK leaves no widget behind: in a world where every
    live widget has an allocated address, whenever [show] returns the live
    widgets are those that were live before, and the world is again such a
    world. *)
Theorem linux_show_leaves_no_widget :
  forall (fuel : nat) (m t : string) (s : Style.t) (b : Buttons.t)
         (w w' : Linux.World) (sel : Selection.t),
    Linux.well_formed w ->
    Linux.show fuel m t s b w = Some (sel, w') ->
    Linux.live w' = Linux.live w /\ Linux.well_formed w'.
Proof.
  intros fuel m t s b w w' sel Hwf Hshow.
  destruct (Linux.can_init w) eqn:Hinit.
  - rewrite (linux_show_unfold fuel m t s b w Hinit) in Hshow.
    destruct (while_ _ _ _ _) as [[[] w1] |] eqn:Hloop; [| discriminate].
    destruct (linux_drain_inv _ _ _ Hloop) as (k & Hk & Hidle).
    rewrite (linux_drain_exact k fuel _ Hk Hidle) in Hloop.
    injection Hloop as <-. injection Hshow as _ <-.
    assert (Hlive : Linux.live (Linux.shown m t s b w) = Linux.live w).
    { unfold Linux.shown. cbn [Linux.live]. apply set_eq. intros h.
      rewrite !elem_of_difference, !elem_of_union, !elem_of_singleton. split.
      - intros [[[-> | [-> | Hh]] Hd] Hp]; [done | done | exact Hh].
      - intros Hh. pose proof (Hwf h Hh). repeat split; [auto | lia | lia]. }
    cbn [Linux.live]. split; [exact Hlive |].
    unfold Linux.well_formed, Linux.shown in *.
    cbn [Linux.live Linux.next] in *. rewrite Hlive. intros h Hh.
    pose proof (Hwf h Hh). lia.
  - rewrite (linux_show_init_fails fuel m t s b w Hinit) in Hshow.
    injection Hshow as _ <-. split; [reflexivity | exact Hwf].
Qed.

(** The desktop has no widget before the call and none after it. *)
Lemma linux_show_leaves_no_widget_witness :
  exists w' : Linux.World,
    Linux.show 3 "Disk full" "Backup" Style.Error Buttons.Quit Linux.desktop =
    Some (Selection.Quit, w') /\
    Linux.live w' = ∅.
Proof.
  eexists. split; [vm_compute; reflexivity |].
  refine (proj1 (linux_show_leaves_no_widget 3 "Disk full" "Backup" Style.Error
                   Buttons.Quit Linux.desktop _ Selection.Quit _ _)).
  - intros h Hh. by apply elem_of_empty in Hh.
  - vm_compute. reflexivity.
Defined.

(** X8: once the toolkit is initialised, [show] on GTK does not return
    for as long as the main context keeps dispatching events: a bound on the
    iterations of its last loop is exhausted exactly when every iteration
    within the bound dispatches something. *)
Theorem linux_show_blocks_while_events_are_dispatched :
  forall (fuel : nat) (m t : string) (s : Style.t) (b : Buttons.t) (w : Linux.World),
    Linux.can_init w = true ->
    (Linux.show fuel m t s b w = None <->
     forall j : nat, (j < fuel)%nat ->
       Linux.main_context w (Linux.iterations w + j)%nat = true).
Proof.
  intros fuel m t s b w Hinit.
  rewrite (linux_show_unfold fuel m t s b w Hinit).
  rewrite <- (linux_drain_None_iff fuel (Linux.shown m t s b w)).
  destruct (while_ _ _ _ _) as [[[] w1] |]; split; (discriminate || reflexivity).
Qed.

(** On the busy desktop a hundred iterations are not enough. *)
Lemma linux_show_blocks_while_events_are_dispatched_witness :
  Linux.show 100 "Disk full" "Backup" Style.Error Buttons.OK Linux.busy = None.
Proof.
  apply (linux_show_blocks_while_events_are_dispatched 100 "Disk full" "Backup"
           Style.Error Buttons.OK Linux.busy); [reflexivity |].
  intros j _. reflexivity.
Defined.

(** ** A run of [show] on Win32, call by call *)

Lemma windows_converts_sized (w : Windows.World) (s : string) :
  Windows.converts w s = true -> (Windows.sized w s <=? 0) = false.
Proof.
  unfold Windows.converts, Windows.sized. intros H.
  apply andb_true_iff in H as [H _]. apply Z.ltb_lt in H. apply Z.leb_gt. exact H.
Qed.

Lemma windows_utf8ToUtf16_exact (s : string) (u : Windows.wstring) (w : Windows.World) :
  Windows.utf8ToUtf16 s u w =
  Some ((Windows.converts w s,
         if Windows.sized w s <=? 0 then u else Windows.converted w s),
        Windows.mkWorld (Windows.converter w) (Windows.user w)
          (Windows.log w ++ Windows.conversion_calls w s)).
Proof.
  unfold Windows.utf8ToUtf16, Windows.converts, Windows.conversion_calls,
    Windows.converted, Windows.sized, bind, Windows.MultiByteToWideChar,
    Windows.logged, ret, nullptr.
  cbn [fst snd Windows.converter Windows.user Windows.log].
  set (count := fst (Windows.converter w Windows.CP_UTF8 0 s (-1) 0)).
  destruct (Z.leb_spec count 0) as [Hle | Hgt].
  - replace (0 <? count) with false by (symmetry; apply Z.ltb_ge; lia).
    reflexivity.
  - replace (0 <? count) with true by (symmetry; apply Z.ltb_lt; lia).
    cbn [fst snd Windows.converter Windows.user Windows.log].
    rewrite Z.gtb_ltb, <- app_assoc. reflexivity.
Qed.

Lemma windows_show_unicode_exact (m t : string) (s : Style.t) (b : Buttons.t)
    (w : Windows.World) :
  let world calls :=
    Windows.mkWorld (Windows.converter w) (Windows.user w) (Windows.log w ++ calls) in
  let text := Windows.wchars (Windows.c_str (Windows.converted w m)) in
  let caption := Windows.wchars (Windows.c_str (Windows.converted w t)) in
  let r := Windows.user w nullptr text caption (Windows.flags_of s b) in
  Windows.show true m t s b w =
  if Windows.converts w m
  then if Windows.converts w t
       then Some (Windows.getSelection r b,
                  world (Windows.conversion_calls w m ++ Windows.conversion_calls w t ++
                         [Windows.MessageBox_ nullptr text caption (Windows.flags_of s b) r]))
       else Some (Selection.Error,
                  world (Windows.conversion_calls w m ++ Windows.conversion_calls w t))
  else Some (Selection.Error, world (Windows.conversion_calls w m)).
Proof.
  cbv zeta. unfold Windows.show. cbv zeta. unfold bind at 1.
  rewrite windows_utf8ToUtf16_exact. cbn [fst snd].
  destruct (Windows.converts w m) eqn:Hm; cbn [negb]; [| reflexivity].
  rewrite (windows_converts_sized w m Hm).
  unfold bind at 1. rewrite windows_utf8ToUtf16_exact. cbn [fst snd].
  change (Windows.converts (Windows.mkWorld (Windows.converter w) _ _) t)
    with (Windows.converts w t).
  change (Windows.sized (Windows.mkWorld (Windows.converter w) _ _) t)
    with (Windows.sized w t).
  change (Windows.converted (Windows.mkWorld (Windows.converter w) _ _) t)
    with (Windows.converted w t).
  change (Windows.conversion_calls (Windows.mkWorld (Windows.converter w) _ _) t)
    with (Windows.conversion_calls w t).
  cbn [Windows.converter Windows.user Windows.log].
  destruct (Windows.converts w t) eqn:Ht; cbn [negb].
  - rewrite (windows_converts_sized w t Ht).
    unfold bind, Windows.MessageBox, Windows.logged, ret, Windows.flags_of.
    cbn [Windows.converter Windows.user Windows.log].
    rewrite <- !app_assoc. reflexivity.
  - unfold ret. rewrite <- app_assoc. reflexivity.
Qed.

Lemma windows_conversion_calls_capacity (w : Windows.World) (s : string) :
  Forall Windows.capacity_matches (Windows.conversion_calls w s).
Proof.
  unfold Windows.conversion_calls. apply Forall_cons. split; [reflexivity |].
  destruct (Z.leb_spec (Windows.sized w s) 0) as [Hle | Hgt]; [apply Forall_nil_2 |].
  apply Forall_cons. split; [| apply Forall_nil_2].
  cbn. rewrite length_replicate. lia.
Qed.

Lemma windows_conversion_calls_source (w : Windows.World) (s : string) :
  Forall (fun c => Windows.source_of c = Some s) (Windows.conversion_calls w s).
Proof.
  unfold Windows.conversion_calls. apply Forall_cons. split; [reflexivity |].
  destruct (_ <=? _); by repeat constructor.
Qed.

Lemma windows_flags_fields (s : Style.t) (b : Buttons.t) :
  Z.land (Windows.flags_of s b) Windows.MB_TYPEMASK = Windows.getButtons b /\
  Z.land (Windows.flags_of s b) Windows.MB_ICONMASK = Windows.getIcon s /\
  Z.land (Windows.flags_of s b) Windows.MB_MODEMASK = Windows.MB_TASKMODAL.
Proof.
  destruct s as [vs], b as [vb]. unfold Windows.flags_of.
  by_cases_of_switch; repeat split; reflexivity.
Qed.

Lemma windows_conversion_calls_no_MessageBox (w : Windows.World) (s : string)
    (hWnd : option nat) (text caption : Windows.text) (uType r : Z) :
  Windows.MessageBox_ hWnd text caption uType r ∉ Windows.conversion_calls w s.
Proof.
  intros Hin.
  pose proof (proj1 (Forall_forall _ _) (windows_conversion_calls_source w s) _ Hin) as H.
  discriminate H.
Qed.

(** X10: in every run of [show] on Win32, with or without [UNICODE], a
    message box is created without an owner window and with flags in which
    the button field is what [getButtons] gave, the icon field what [getIcon]
    gave, and the modality [MB_TASKMODAL]: the three parts do not disturb one
    another, whatever the [Style] and [Buttons] values. *)
Theorem windows_show_flags_keep_icon_and_buttons :
  forall (UNICODE : bool) (m t : string) (s : Style.t) (b : Buttons.t)
         (w w' : Windows.World) (sel : Selection.t),
    Windows.show UNICODE m t s b w = Some (sel, w') ->
    forall (hWnd : option nat) (text caption : Windows.text) (uType r : Z),
      Windows.MessageBox_ hWnd text caption uType r ∈
        drop (length (Windows.log w)) (Windows.log w') ->
      hWnd = nullptr /\
      Z.land uType Windows.MB_TYPEMASK = Windows.getButtons b /\
      Z.land uType Windows.MB_ICONMASK = Windows.getIcon s /\
      Z.land uType Windows.MB_MODEMASK = Windows.MB_TASKMODAL.
Proof.
  intros [] m t s b w w' sel Hshow hWnd text caption uType r Hin.
  - pose proof (windows_show_unicode_exact m t s b w) as Hex. cbv zeta in Hex.
    rewrite Hex in Hshow. clear Hex.
    pose proof (windows_conversion_calls_no_MessageBox w m hWnd text caption uType r) as Nm.
    pose proof (windows_conversion_calls_no_MessageBox w t hWnd text caption uType r) as Nt.
    remember (Windows.conversion_calls w m) as cm eqn:Ecm.
    remember (Windows.conversion_calls w t) as ct eqn:Ect.
    destruct (Windows.converts w m); [destruct (Windows.converts w t) |];
      injection Hshow as _ <-; cbn [Windows.log] in Hin;
      rewrite drop_app_length in Hin;
      repeat (apply elem_of_app in Hin; destruct Hin as [Hin | Hin]; [done |]);
      try done.
    apply list_elem_of_singleton in Hin. injection Hin as -> _ _ -> _.
    split; [reflexivity | apply windows_flags_fields].
  - rewrite windows_show_ansi in Hshow. injection Hshow as _ <-.
    unfold Windows.logged in Hin. cbn [Windows.log] in Hin.
    rewrite drop_app_length in Hin.
    apply list_elem_of_singleton in Hin. injection Hin as -> _ _ -> _.
    split; [reflexivity | apply windows_flags_fields].
Qed.

(** A warning with OK and Cancel: flags 0x2031. *)
Lemma windows_show_flags_keep_icon_and_buttons_witness :
  Z.land 0x2031 Windows.MB_TYPEMASK = Windows.MB_OKCANCEL /\
  Z.land 0x2031 Windows.MB_ICONMASK = Windows.MB_ICONWARNING /\
  Z.land 0x2031 Windows.MB_MODEMASK = Windows.MB_TASKMODAL.
Proof.
  refine (proj2 (windows_show_flags_keep_icon_and_buttons false "Disk full" "Backup"
                   Style.Warning Buttons.OKCancel Windows.session _ _ _
                   nullptr (Windows.chars "Disk full") (Windows.chars "Backup")
                   0x2031 Windows.IDOK _)).
  - vm_compute. reflexivity.
  - vm_compute. apply list_elem_of_here.
Defined.

(** X11: with [UNICODE], when both texts convert, [show] converts the
    message, then the title (for each a sizing call and a converting call),
    and then creates one message box with the converted texts up to their
    terminators; it returns [getSelection] of the response and the buttons
    requested. *)
Theorem windows_unicode_show_call_by_call :
  forall (m t : string) (s : Style.t) (b : Buttons.t) (w : Windows.World),
    Windows.converts w m = true ->
    Windows.converts w t = true ->
    exists r : Z,
      r = Windows.user w nullptr
            (Windows.wchars (Windows.c_str (Windows.converted w m)))
            (Windows.wchars (Windows.c_str (Windows.converted w t)))
            (Windows.flags_of s b) /\
      Windows.show true m t s b w =
      Some (Windows.getSelection r b,
            Windows.mkWorld (Windows.converter w) (Windows.user w)
              (Windows.log w ++
               Windows.conversion_calls w m ++ Windows.conversion_calls w t ++
               [Windows.MessageBox_ nullptr
                  (Windows.wchars (Windows.c_str (Windows.converted w m)))
                  (Windows.wchars (Windows.c_str (Windows.converted w t)))
                  (Windows.flags_of s b) r])).
Proof.
  intros m t s b w Hm Ht. eexists. split; [reflexivity |].
  pose proof (windows_show_unicode_exact m t s b w) as Hex. cbv zeta in Hex.
  by rewrite Hex, Hm, Ht.
Qed.

(** "Quit?" asked with the Quit button: five calls, and the answer is Quit. *)
Lemma windows_unicode_show_call_by_call_witness :
  exists w' : Windows.World,
    Windows.show true "Quit?" "Menu" Style.Question Buttons.Quit Windows.session =
    Some (Selection.Quit, w') /\
    length (Windows.log w') = 5%nat.
Proof.
  destruct (windows_unicode_show_call_by_call "Quit?" "Menu" Style.Question Buttons.Quit
              Windows.session) as (r & -> & Hshow); [reflexivity | reflexivity |].
  eexists. split; [exact Hshow |]. reflexivity.
Defined.

(** X12: with [UNICODE], [show] converts the message before the title
    and stops at the first text that does not convert.  When the message
    does not convert, the title, the style and the buttons play no part: the
    result is [Selection::Error] and the only calls made are those that
    tried to convert the message.  When the title does not convert, the calls
    are those for the message followed by those for the title. *)
Theorem windows_unicode_show_stops_at_first_failure :
  (forall (m t : string) (s : Style.t) (b : Buttons.t) (w : Windows.World),
     Windows.converts w m = false ->
     Windows.show true m t s b w =
     Some (Selection.Error,
           Windows.mkWorld (Windows.converter w) (Windows.user w)
             (Windows.log w ++ Windows.conversion_calls w m))) /\
  (forall (m t t' : string) (s s' : Style.t) (b b' : Buttons.t) (w : Windows.World),
     Windows.converts w m = false ->
     Windows.show true m t s b w = Windows.show true m t' s' b' w) /\
  (forall (m t : string) (s : Style.t) (b : Buttons.t) (w : Windows.World),
     Windows.converts w m = true ->
     Windows.converts w t = false ->
     Windows.show true m t s b w =
     Some (Selection.Error,
           Windows.mkWorld (Windows.converter w) (Windows.user w)
             (Windows.log w ++
              Windows.conversion_calls w m ++ Windows.conversion_calls w t))).
Proof.
  assert (H1 : forall m t s b w,
             Windows.converts w m = false ->
             Windows.show true m t s b w =
             Some (Selection.Error,
                   Windows.mkWorld (Windows.converter w) (Windows.user w)
                     (Windows.log w ++ Windows.conversion_calls w m))).
  { intros m t s b w Hm.
    pose proof (windows_show_unicode_exact m t s b w) as Hex. cbv zeta in Hex.
    by rewrite Hex, Hm. }
  split; [exact H1 |]. split.
  - intros m t t' s s' b b' w Hm. by rewrite !H1.
  - intros m t s b w Hm Ht.
    pose proof (windows_show_unicode_exact m t s b w) as Hex. cbv zeta in Hex.
    by rewrite Hex, Hm, Ht.
Qed.

(** The message "café" is rejected: one call, whatever the title. *)
Lemma windows_unicode_show_stops_at_first_failure_witness :
  Windows.show true "café" "Menu" Style.Info Buttons.OK Windows.session =
  Some (Selection.Error,
        Windows.mkWorld Windows.ascii_converter (Windows.user Windows.session)
          [Windows.MultiByteToWideChar_ Windows.CP_UTF8 0 "café" (-1) nullptr 0 0]) /\
  Windows.show true "café" "Menu" Style.Info Buttons.OK Windows.session =
  Windows.show true "café" "Carte" Style.Question Buttons.YesNo Windows.session /\
  Windows.show true "Menu" "café" Style.Info Buttons.OK Windows.session =
  Some (Selection.Error,
        Windows.mkWorld Windows.ascii_converter (Windows.user Windows.session)
          ([] ++ Windows.conversion_calls Windows.session "Menu" ++
                 Windows.conversion_calls Windows.session "café")).
Proof.
  destruct windows_unicode_show_stops_at_first_failure as (H1 & H2 & H3).
  split; [| split].
  - apply (H1 "café" "Menu" Style.Info Buttons.OK Windows.session). by vm_compute.
  - apply H2. by vm_compute.
  - apply (H3 "Menu" "café" Style.Info Buttons.OK Windows.session); by vm_compute.
Defined.


(** * [show] and its caller *)

(** ** The free store on Win32 *)

Lemma heap_utf8ToUtf16_exact (grants : nat -> bool) (s : string) (u : Windows.wstring)
    (w : Windows.World) :
  Win32Heap.utf8ToUtf16 grants s u w =
  if Win32Heap.refused grants w s
  then Some (inl bad_alloc,
             Windows.mkWorld (Windows.converter w) (Windows.user w)
               (Windows.log w ++
                [Windows.MultiByteToWideChar_ Windows.CP_UTF8 0 s (-1) nullptr 0
                   (Windows.sized w s)]))
  else Win32Heap.lift (Windows.utf8ToUtf16 s u) w.
Proof.
  unfold Win32Heap.utf8ToUtf16, Windows.utf8ToUtf16, Win32Heap.refused,
    Win32Heap.lift, Win32Heap.and_then, Win32Heap.wstring_of, Win32Heap.pure,
    Win32Heap.throw, Windows.sized, bind, Windows.MultiByteToWideChar,
    Windows.logged, ret, nullptr.
  cbn [fst snd Windows.converter Windows.user Windows.log].
  set (count := fst (Windows.converter w Windows.CP_UTF8 0 s (-1) 0)).
  destruct (Z.leb_spec count 0) as [Hle | Hgt].
  - replace (0 <? count) with false by (symmetry; apply Z.ltb_ge; lia).
    reflexivity.
  - replace (0 <? count) with true by (symmetry; apply Z.ltb_lt; lia).
    cbn [andb]. destruct (grants (Z.to_nat count)); reflexivity.
Qed.

Lemma heap_show_ansi (grants : nat -> bool) (m t : string) (s : Style.t) (b : Buttons.t)
    (w : Windows.World) :
  Win32Heap.show grants false m t s b w = Win32Heap.lift (Windows.show false m t s b) w.
Proof. reflexivity. Qed.

Lemma heap_show_unicode_exact (grants : nat -> bool) (m t : string) (s : Style.t)
    (b : Buttons.t) (w : Windows.World) :
  let world calls :=
    Windows.mkWorld (Windows.converter w) (Windows.user w) (Windows.log w ++ calls) in
  let sizing text :=
    Windows.MultiByteToWideChar_ Windows.CP_UTF8 0 text (-1) nullptr 0
      (Windows.sized w text) in
  Win32Heap.show grants true m t s b w =
  if Win32Heap.refused grants w m
  then Some (inl bad_alloc, world [sizing m])
  else if Windows.converts w m && Win32Heap.refused grants w t
       then Some (inl bad_alloc, world (Windows.conversion_calls w m ++ [sizing t]))
       else Win32Heap.lift (Windows.show true m t s b) w.
Proof.
  cbv zeta.
  pose proof (windows_show_unicode_exact m t s b w) as Hbase. cbv zeta in Hbase.
  unfold Win32Heap.lift at 1. unfold bind at 1. rewrite Hbase. clear Hbase.
  unfold Win32Heap.show. cbv zeta. unfold Win32Heap.and_then at 1, bind at 1.
  rewrite heap_utf8ToUtf16_exact.
  destruct (Win32Heap.refused grants w m); [reflexivity |].
  unfold Win32Heap.lift at 1, bind at 1. rewrite windows_utf8ToUtf16_exact.
  unfold ret at 1. cbn [fst snd].
  destruct (Windows.converts w m) eqn:Hm; cbn [negb andb]; [| reflexivity].
  rewrite (windows_converts_sized w m Hm).
  unfold Win32Heap.and_then at 1, bind at 1. rewrite heap_utf8ToUtf16_exact.
  change (Win32Heap.refused grants (Windows.mkWorld (Windows.converter w) _ _) t)
    with (Win32Heap.refused grants w t).
  change (Windows.sized (Windows.mkWorld (Windows.converter w) _ _) t)
    with (Windows.sized w t).
  cbn [Windows.converter Windows.user Windows.log].
  destruct (Win32Heap.refused grants w t).
  { unfold ret. rewrite <- app_assoc. reflexivity. }
  unfold Win32Heap.lift at 1, bind at 1. rewrite windows_utf8ToUtf16_exact.
  change (Windows.converts (Windows.mkWorld (Windows.converter w) _ _) t)
    with (Windows.converts w t).
  change (Windows.sized (Windows.mkWorld (Windows.converter w) _ _) t)
    with (Windows.sized w t).
  change (Windows.converted (Windows.mkWorld (Windows.converter w) _ _) t)
    with (Windows.converted w t).
  change (Windows.conversion_calls (Windows.mkWorld (Windows.converter w) _ _) t)
    with (Windows.conversion_calls w t).
  unfold ret at 1. cbn [fst snd Windows.converter Windows.user Windows.log].
  destruct (Windows.converts w t) eqn:Ht; cbn [negb].
  - rewrite (windows_converts_sized w t Ht).
    unfold Win32Heap.and_then, Win32Heap.lift, Win32Heap.pure, bind,
      Windows.MessageBox, Windows.logged, ret, Windows.flags_of.
    cbn [Windows.converter Windows.user Windows.log].
    rewrite <- !app_assoc. reflexivity.
  - unfold Win32Heap.pure, ret. rewrite <- app_assoc. reflexivity.
Qed.

(** ** The contract of [show], as the code keeps it *)



